(** * ModelCheckpoint (deepctr_torch/callbacks.py)

    A shallow embedding of the [ModelCheckpoint] callback and the
    properties of its constructor, of [on_epoch_end] and of
    [_save_model].

    - Python [float] values are IEEE 754 binary64 numbers: [spec_float]
      with the comparisons of [SpecFloat] (a NaN compares false with
      everything and is unequal to everything).
    - Python [int] values ([epoch], [period], [verbose], the counter) are
      unbounded: [Z].
    - [logs] is a [dict] from metric names to floats: [gmap string float].
    - The mutable object [self] is threaded through a small monad that
      also carries the file system, the list of observable events and the
      exception that may end the call. *)

From Stdlib Require Import ZArith String Ascii List Bool Lia.
From Stdlib Require Import Floats.SpecFloat.
From stdpp Require Import base option gmap strings.

Open Scope string_scope.
Open Scope list_scope.
Open Scope Z_scope.

(** ** Python floats *)

Module PyFloat.

Abbreviation float := spec_float.

(** [float('inf')] and [-float('inf')]. *)
Definition inf : float := S754_infinity false.
Definition neg_inf : float := SFopp inf.
Definition nan : float := S754_nan.

(** The binary64 format. *)
Definition is_binary64 (x : float) : bool := valid_binary 53 1024 x.

(** [a < b], [a > b], [a == b] and [a != b] on floats. *)
Definition lt (a b : float) : bool := SFltb a b.
Definition gt (a b : float) : bool := SFltb b a.
Definition eq (a b : float) : bool := SFeqb a b.
Definition ne (a b : float) : bool := negb (SFeqb a b).

Definition is_nan (x : float) : bool :=
  match x with S754_nan => true | _ => false end.

(** The builtins [min(a, b)] and [max(a, b)]: the first argument is kept
    unless the second one is strictly smaller (resp. greater). *)
Definition py_min (a b : float) : float := if lt b a then b else a.
Definition py_max (a b : float) : float := if gt b a then b else a.

(** Some literals: 0.5, 0.8, 0.9, 1.0 and 1.5. *)
Definition f0_5 : float := S754_finite false 4503599627370496 (-53).
Definition f1_0 : float := S754_finite false 4503599627370496 (-52).
Definition f1_5 : float := S754_finite false 6755399441055744 (-52).
Definition f0_8 : float := S754_finite false 7205759403792794 (-53).
Definition f0_9 : float := S754_finite false 8106479329266893 (-53).

End PyFloat.

Import PyFloat.

(** ** Python strings and paths *)

Module PyStr.

(** [sub in s] on strings: [sub] occurs somewhere in [s]. *)
Fixpoint py_in (sub s : string) : bool :=
  String.prefix sub s ||
  match s with
  | EmptyString => false
  | String _ rest => py_in sub rest
  end.

Definition is_sep (c : ascii) : bool := Ascii.eqb c "/".

Definition is_empty (s : string) : bool :=
  match s with EmptyString => true | String _ _ => false end.

(** [p[:p.rfind('/') + 1]]: the prefix of [p] that ends with its last
    separator, empty when [p] has none. *)
Fixpoint upto_last_sep (p : string) : string :=
  match p with
  | EmptyString => EmptyString
  | String c rest =>
      let h := upto_last_sep rest in
      if is_empty h
      then (if is_sep c then String c EmptyString else EmptyString)
      else String c h
  end.

(** [head == '/' * len(head)]. *)
Fixpoint all_sep (s : string) : bool :=
  match s with
  | EmptyString => true
  | String c rest => is_sep c && all_sep rest
  end.

(** [head.rstrip('/')]. *)
Fixpoint rstrip_sep (s : string) : string :=
  match s with
  | EmptyString => EmptyString
  | String c rest =>
      let r := rstrip_sep rest in
      if is_sep c && is_empty r then EmptyString else String c r
  end.

(** [os.path.dirname] as [posixpath] defines it: ['/'] is the only
    separator and there are no drive letters.  On Windows [os.path] is
    [ntpath], which this definition does not describe. *)
Definition os_path_dirname (p : string) : string :=
  let head := upto_last_sep p in
  if negb (is_empty head) && negb (all_sep head)
  then rstrip_sep head
  else head.

(** [c in p] for one character. *)
Fixpoint has_char (c : ascii) (p : string) : bool :=
  match p with
  | EmptyString => false
  | String d rest => Ascii.eqb d c || has_char c rest
  end.

End PyStr.

Import PyStr.

(** ** Exceptions, events and the callback monad *)

Inductive os_errno := ENOENT | EEXIST | EISDIR | ENOTDIR | EACCES | ENOSPC.

Inductive exn :=
| KeyError (key : string)
| IndexError
| ValueError (msg : string)
| TypeError (msg : string)
| AttributeError (attr : string)
| OSError (errno : os_errno) (path : string)
| RuntimeError (msg : string).

Inductive result (A : Type) :=
| Ok (a : A)
| Raise (e : exn).
Arguments Ok {A} a.
Arguments Raise {A} e.

(** A keyword argument handed to [str.format]. *)
Inductive fmt_arg :=
| ArgInt (n : Z)
| ArgFloat (x : float).

(** What [torch.save] is given: [model.state_dict()] or the model. *)
Inductive payload (Model : Type) :=
| StateDict (m : Model)
| FullModel (m : Model).
Arguments StateDict {Model} m.
Arguments FullModel {Model} m.

(** The arguments of the four [print] calls; each constructor stands for
    the line its format string produces. *)
Inductive message :=
| MsgSkipping (monitor : string)
| MsgImproved (epoch1 : Z) (monitor : string) (best current : float) (filepath : string)
| MsgNotImproved (epoch1 : Z) (monitor : string) (best : float)
| MsgSaving (epoch1 : Z) (filepath : string).

(** What a call does that can be observed from outside, in order.
    [EvFormat] marks that the statement resolving the path (line 44) was
    reached, with the template and the arguments of the call; whether the
    resolution succeeds is a separate matter. *)
Inductive event (Model : Type) :=
| EvFormat (template : string) (epoch1 : Z) (logs : gmap string float)
| EvPrint (m : message)
| EvExists (directory : string)
| EvMakedirs (directory : string)
| EvTorchSave (p : payload Model) (filepath : string).
Arguments EvFormat {Model} template epoch1 logs.
Arguments EvPrint {Model} m.
Arguments EvExists {Model} directory.
Arguments EvMakedirs {Model} directory.
Arguments EvTorchSave {Model} p filepath.

Definition is_format {Model} (e : event Model) : bool :=
  match e with EvFormat _ _ _ => true | _ => false end.
Definition is_torch_save {Model} (e : event Model) : bool :=
  match e with EvTorchSave _ _ => true | _ => false end.

(** [min] or [max], as stored in [self.monitor_op]. *)
Inductive monitor_fn := Min | Max.

Definition call_op (op : monitor_fn) (a b : float) : float :=
  match op with
  | Min => py_min a b
  | Max => py_max a b
  end.

(** The test of [on_epoch_end]: [monitor_op(current, best) != best]. *)
Definition improved (op : monitor_fn) (current best : float) : bool :=
  ne (call_op op current best) best.

(** The attributes of a [ModelCheckpoint] object.  [model] is not set by
    the constructor: the training driver attaches it later. *)
Record ModelCheckpoint (Model : Type) := mkModelCheckpoint {
  filepath : string;
  monitor : string;
  verbose : Z;
  save_best_only : bool;
  save_weights_only : bool;
  period : Z;
  epochs_since_last_save : Z;
  best : float;
  monitor_op : monitor_fn;
  model : option Model
}.
Arguments mkModelCheckpoint {Model}.
Arguments filepath {Model} _.
Arguments monitor {Model} _.
Arguments verbose {Model} _.
Arguments save_best_only {Model} _.
Arguments save_weights_only {Model} _.
Arguments period {Model} _.
Arguments epochs_since_last_save {Model} _.
Arguments best {Model} _.
Arguments monitor_op {Model} _.
Arguments model {Model} _.

Definition set_epochs_since_last_save {Model} (n : Z) (s : ModelCheckpoint Model) :=
  mkModelCheckpoint (filepath s) (monitor s) (verbose s) (save_best_only s)
    (save_weights_only s) (period s) n (best s) (monitor_op s) (model s).

Definition set_best {Model} (x : float) (s : ModelCheckpoint Model) :=
  mkModelCheckpoint (filepath s) (monitor s) (verbose s) (save_best_only s)
    (save_weights_only s) (period s) (epochs_since_last_save s) x (monitor_op s) (model s).

Definition set_model {Model} (m : Model) (s : ModelCheckpoint Model) :=
  mkModelCheckpoint (filepath s) (monitor s) (verbose s) (save_best_only s)
    (save_weights_only s) (period s) (epochs_since_last_save s) (best s)
    (monitor_op s) (Some m).

(** The collaborators the callback calls into: the [str.format] builtin,
    the [os] module and [torch.save].  They work on a file system of type
    [FS]; a call that raises still returns the file system it leaves. *)
Class Platform (FS Model : Type) := {
  str_format : string -> gmap string fmt_arg -> result string;
  os_path_exists : string -> FS -> bool;
  os_makedirs : string -> FS -> result unit * FS;
  torch_save : payload Model -> string -> FS -> result unit * FS
}.

(** Two facts of the [os] module about the empty path:
    [os.path.exists('')] is [False] and [os.makedirs('')] raises
    [FileNotFoundError] and creates nothing. *)
Class EmptyPathLaws (FS Model : Type) `{Platform FS Model} : Prop := {
  exists_empty : forall fs, os_path_exists "" fs = false;
  makedirs_empty : forall fs, os_makedirs "" fs = (Raise (OSError ENOENT ""), fs)
}.

Section Callback.

Context {FS Model : Type} `{Platform FS Model}.

(** A computation reads and updates [self] and the file system, emits
    events, and returns a value or raises. *)
Definition M (A : Type) : Type :=
  ModelCheckpoint Model -> FS ->
  result A * ModelCheckpoint Model * FS * list (event Model).

Definition ret {A} (a : A) : M A := fun s fs => (Ok a, s, fs, []).

Definition raise {A} (e : exn) : M A := fun s fs => (Raise e, s, fs, []).

Definition bind {A B} (m : M A) (k : A -> M B) : M B := fun s fs =>
  match m s fs with
  | (Ok a, s1, fs1, ev1) =>
      let '(r, s2, fs2, ev2) := k a s1 fs1 in (r, s2, fs2, (ev1 ++ ev2)%list)
  | (Raise e, s1, fs1, ev1) => (Raise e, s1, fs1, ev1)
  end.

Definition get_self : M (ModelCheckpoint Model) := fun s fs => (Ok s, s, fs, []).

Definition modify_self (f : ModelCheckpoint Model -> ModelCheckpoint Model) : M unit :=
  fun s fs => (Ok tt, f s, fs, []).

Definition emit (e : event Model) : M unit := fun s fs => (Ok tt, s, fs, [e]).

Definition of_result {A} (r : result A) : M A := fun s fs => (r, s, fs, []).

Definition on_fs {A} (f : FS -> result A * FS) : M A := fun s fs =>
  let '(r, fs1) := f fs in (r, s, fs1, []).

Definition py_print (m : message) : M unit := emit (EvPrint m).

Definition when (b : bool) (m : M unit) : M unit := if b then m else ret tt.

Notation "'let!' x ':=' c 'in' k" := (bind c (fun x => k))
  (at level 10, x name, c at level 100, k at level 200).
Notation "c ';;;' k" := (bind c (fun _ => k))
  (at level 100, k at level 200, right associativity).

(** [ModelCheckpoint.__init__]. *)
Definition __init__ (filepath monitor : string) (verbose : Z)
    (save_best_only : bool) (mode : string) (save_weights_only : bool)
    (period : Z) : ModelCheckpoint Model :=
  let best0 := if String.eqb mode "min" then inf else neg_inf in
  let op0 := if String.eqb mode "min" then Min else Max in
  let '(op1, best1) :=
    if String.eqb mode "auto" then
      if py_in "acc" monitor then (Max, neg_inf) else (Min, inf)
    else (op0, best0) in
  mkModelCheckpoint filepath monitor verbose save_best_only
    save_weights_only period 0 best1 op1 None.

(** [self.model]: an [AttributeError] until the driver has set it. *)
Definition get_model : M Model :=
  let! self := get_self in
  match model self with
  | Some m => ret m
  | None => raise (AttributeError "model")
  end.

(** [ModelCheckpoint._save_model]. *)
Definition _save_model (epoch : Z) (filepath : string) : M unit :=
  let directory := os_path_dirname filepath in
  emit (EvExists directory) ;;;
  let! present := on_fs (fun fs => (Ok (os_path_exists directory fs), fs)) in
  when (negb present)
    (emit (EvMakedirs directory) ;;; on_fs (os_makedirs directory)) ;;;
  let! self := get_self in
  if save_weights_only self then
    let! m := get_model in
    emit (EvTorchSave (StateDict m) filepath) ;;;
    on_fs (torch_save (StateDict m) filepath)
  else
    let! m := get_model in
    emit (EvTorchSave (FullModel m) filepath) ;;;
    on_fs (torch_save (FullModel m) filepath).

(** [self.filepath.format(epoch=epoch + 1, **logs)]: a key ['epoch'] in
    [logs] clashes with the explicit keyword, and the call fails with a
    [TypeError] before [str.format] runs. *)
Definition format_filepath (template : string) (epoch1 : Z)
    (logs : gmap string float) : result string :=
  match logs !! "epoch" with
  | Some _ => Raise (TypeError "str.format() got multiple values for keyword argument 'epoch'")
  | None => str_format template (<["epoch" := ArgInt epoch1]> (ArgFloat <$> logs))
  end.

(** [ModelCheckpoint.on_epoch_end]. *)
Definition on_epoch_end (epoch : Z) (logs : option (gmap string float)) : M unit :=
  let logs := default ∅ logs in
  modify_self (fun s => set_epochs_since_last_save (epochs_since_last_save s + 1) s) ;;;
  let! self := get_self in
  if period self <=? epochs_since_last_save self then
    modify_self (set_epochs_since_last_save 0) ;;;
    emit (EvFormat (filepath self) (epoch + 1) logs) ;;;
    let! filepath := of_result (format_filepath (filepath self) (epoch + 1) logs) in
    if save_best_only self then
      match logs !! monitor self with
      | None =>
          when (0 <? verbose self) (py_print (MsgSkipping (monitor self)))
      | Some current =>
          let! self := get_self in
          if improved (monitor_op self) current (best self) then
            when (0 <? verbose self)
              (py_print (MsgImproved (epoch + 1) (monitor self) (best self) current filepath)) ;;;
            modify_self (set_best current) ;;;
            _save_model epoch filepath
          else
            when (0 <? verbose self)
              (py_print (MsgNotImproved (epoch + 1) (monitor self) (best self)))
      end
    else
      when (0 <? verbose self) (py_print (MsgSaving (epoch + 1) filepath)) ;;;
      _save_model epoch filepath
  else ret tt.

(** A training run: the calls of [on_epoch_end] one after the other on
    the same object.  Each entry is what one call returned or raised,
    the object and the file system after it, and the events it emitted. *)
Fixpoint run (calls : list (Z * option (gmap string float)))
    (self : ModelCheckpoint Model) (fs : FS)
    : list (result unit * ModelCheckpoint Model * FS * list (event Model)) :=
  match calls with
  | [] => []
  | (epoch, logs) :: rest =>
      let '(r, self1, fs1, evs) := on_epoch_end epoch logs self fs in
      (r, self1, fs1, evs) :: run rest self1 fs1
  end.

End Callback.

(** ** Observations on a call *)

Section Observations.

Context {FS Model : Type}.

(** The four components of what a call leaves behind. *)
Definition outcome {A} (o : result A * ModelCheckpoint Model * FS * list (event Model))
  : result A := o.1.1.1.
Definition self_after {A} (o : result A * ModelCheckpoint Model * FS * list (event Model))
  : ModelCheckpoint Model := o.1.1.2.
Definition fs_after {A} (o : result A * ModelCheckpoint Model * FS * list (event Model))
  : FS := o.1.2.
Definition events {A} (o : result A * ModelCheckpoint Model * FS * list (event Model))
  : list (event Model) := o.2.

(** [self] once line 43 has reset the counter. *)
Definition reset (s : ModelCheckpoint Model) : ModelCheckpoint Model :=
  set_epochs_since_last_save 0 s.

(** What [if self.verbose > 0: print(...)] emits. *)
Definition printed (s : ModelCheckpoint Model) (m : message) : list (event Model) :=
  if 0 <? verbose s then [EvPrint m] else [].

(** The call resolved (or tried to resolve) the path template. *)
Definition attempted (evs : list (event Model)) : bool := existsb is_format evs.

(** The call handed something to [torch.save]. *)
Definition persisted (evs : list (event Model)) : bool := existsb is_torch_save evs.

End Observations.

(** ** A reference platform

    A small executable platform on which the callback can be run: a
    formatter for templates whose replacement fields are plain names, and
    a file system that is a set of directories and a map of files.  The
    theorems below hold for every platform; this one instantiates them,
    and it is meant for the inputs used there only:
    - a field with a conversion, a format spec, an attribute or an index
      is outside the formatter's fragment and reported as such;
    - a float in a plain field is rendered as mantissa and exponent, not
      as Python's [repr];
    - paths are compared as written, without normalising ['.'], ['..'] or
      repeated separators, and a destination is expected not to end in a
      separator. *)

Module Sim.

Definition show_Z (n : Z) : string := pretty.pretty n.

(** A rendering of a float, used for plain fields only. *)
Definition show_float (x : float) : string :=
  match x with
  | S754_zero s => if s then "-0.0" else "0.0"
  | S754_infinity s => if s then "-inf" else "inf"
  | S754_nan => "nan"
  | S754_finite s m e =>
      (if s then "-" else "") +:+ show_Z (Z.pos m) +:+ "*2**" +:+ show_Z e
  end.

Definition show_arg (a : fmt_arg) : string :=
  match a with
  | ArgInt n => show_Z n
  | ArgFloat x => show_float x
  end.

Definition is_digit (c : ascii) : bool :=
  let n := nat_of_ascii c in (48 <=? n)%nat && (n <=? 57)%nat.

Fixpoint all_digits (s : string) : bool :=
  match s with
  | EmptyString => true
  | String c rest => is_digit c && all_digits rest
  end.

(** The value of the field called [name]: no positional argument is
    ever passed, so an empty or numeric name is out of range. *)
Definition get_field (kwargs : gmap string fmt_arg) (name : string) : result string :=
  if all_digits name then Raise IndexError
  else match kwargs !! name with
       | Some a => Ok (show_arg a)
       | None => Raise (KeyError name)
       end.

Definition snoc (s : string) (c : ascii) : string := s +:+ String c EmptyString.

(** One pass over the template, left to right; [field] is [Some name]
    while inside a replacement field.  The first error ends the pass. *)
Fixpoint format_go (kwargs : gmap string fmt_arg) (t : string)
    (field : option string) (out : string) : result string :=
  match field with
  | None =>
      match t with
      | EmptyString => Ok out
      | String c r =>
          if Ascii.eqb c "{" then
            match r with
            | EmptyString =>
                Raise (ValueError "Single '{' encountered in format string")
            | String d r' =>
                if Ascii.eqb d "{" then format_go kwargs r' None (snoc out c)
                else format_go kwargs r (Some EmptyString) out
            end
          else if Ascii.eqb c "}" then
            match r with
            | EmptyString =>
                Raise (ValueError "Single '}' encountered in format string")
            | String d r' =>
                if Ascii.eqb d "}" then format_go kwargs r' None (snoc out c)
                else Raise (ValueError "Single '}' encountered in format string")
            end
          else format_go kwargs r None (snoc out c)
      end
  | Some name =>
      match t with
      | EmptyString => Raise (ValueError "expected '}' before end of string")
      | String c r =>
          if Ascii.eqb c "}" then
            match get_field kwargs name with
            | Ok txt => format_go kwargs r None (out +:+ txt)
            | Raise e => Raise e
            end
          else if Ascii.eqb c "{" then
            Raise (ValueError "unexpected '{' in field name")
          else if Ascii.eqb c ":" || Ascii.eqb c "!" || Ascii.eqb c "." || Ascii.eqb c "["
          then Raise (RuntimeError "replacement field outside the plain-name fragment")
          else format_go kwargs r (Some (snoc name c)) out
      end
  end.

Definition format (template : string) (kwargs : gmap string fmt_arg) : result string :=
  format_go kwargs template None EmptyString.

(** Models are numbered. *)
Definition Model : Type := nat.

Record FS := mkFS {
  dirs : gset string;
  files : gmap string (payload Model)
}.

Definition path_exists (p : string) (fs : FS) : bool :=
  negb (is_empty p) &&
  (bool_decide (p ∈ dirs fs) || bool_decide (is_Some (files fs !! p))).

(** [d] and the directories above it. *)
Fixpoint chain (fuel : nat) (d : string) : list string :=
  match fuel with
  | O => []
  | S fuel' =>
      if is_empty d then []
      else d :: (if String.eqb (os_path_dirname d) d then []
                 else chain fuel' (os_path_dirname d))
  end.

Definition makedirs (d : string) (fs : FS) : result unit * FS :=
  if is_empty d then (Raise (OSError ENOENT d), fs)
  else if path_exists d fs then (Raise (OSError EEXIST d), fs)
  else (Ok tt, mkFS (list_to_set (chain (String.length d) d) ∪ dirs fs) (files fs)).

Definition save (p : payload Model) (path : string) (fs : FS) : result unit * FS :=
  if is_empty path then (Raise (OSError ENOENT path), fs)
  else if bool_decide (path ∈ dirs fs) then (Raise (OSError EISDIR path), fs)
  else if negb (is_empty (os_path_dirname path)) &&
          negb (bool_decide (os_path_dirname path ∈ dirs fs))
  then (Raise (OSError ENOENT path), fs)
  else (Ok tt, mkFS (dirs fs) (<[path := p]> (files fs))).

#[global] Instance platform : Platform FS Model := {
  str_format := format;
  os_path_exists := path_exists;
  os_makedirs := makedirs;
  torch_save := save
}.

Definition empty_fs : FS := mkFS ∅ ∅.

End Sim.

(** ** Callback objects on the reference platform *)

Module Demo.

(** An object as the constructor builds it, with model number 7
    attached by the driver. *)
Definition make (template monitor : string) (verbose : Z)
    (save_best_only : bool) (mode : string) (period : Z)
    : ModelCheckpoint Sim.Model :=
  set_model 7%nat
    (__init__ template monitor verbose save_best_only mode false period).

(** [logs] with the single entry [val_loss]. *)
Definition loss (x : float) : option (gmap string float) :=
  Some {[ "val_loss" := x ]}.

(** [logs] with the single entry [val_acc]. *)
Definition acc (x : float) : option (gmap string float) :=
  Some {[ "val_acc" := x ]}.

(** [on_epoch_end(epoch)] with [logs] left at its default. *)
Definition no_logs : option (gmap string float) := None.

Definition best_loss : ModelCheckpoint Sim.Model :=
  make "ckpt/model_{epoch}.pt" "val_loss" 1 true "min" 1.

(** One file for the best model, rewritten at every improvement. *)
Definition best_file : ModelCheckpoint Sim.Model :=
make "ckpt/best.pt" "val_loss" 1 true "min" 1.

Definition best_acc : ModelCheckpoint Sim.Model :=
  make "ckpt/best.pt" "val_acc" 1 true "auto" 1.

Definition every_third : ModelCheckpoint Sim.Model :=
  make "ckpt/model_{epoch}.pt" "val_loss" 0 false "auto" 3.

Definition every_second_best : ModelCheckpoint Sim.Model :=
  make "ckpt/model.pt" "val_loss" 0 true "min" 2.

(** The template names a metric that the driver does not report. *)
Definition names_val_acc : ModelCheckpoint Sim.Model :=
  make "ckpt/{val_acc}.pt" "val_loss" 0 true "min" 1.

(** The template names the monitored metric. *)
Definition names_val_loss : ModelCheckpoint Sim.Model :=
  make "ckpt/{val_loss}.pt" "val_loss" 0 true "min" 1.

(** A bare file name in the current directory. *)
Definition bare_best : ModelCheckpoint Sim.Model :=
  make "model.pt" "val_loss" 0 true "min" 1.

Definition six_epochs : list (Z * option (gmap string float)) :=
  [(0, loss f1_5); (1, loss f1_0); (2, loss f0_9);
   (3, loss f0_8); (4, loss f0_5); (5, loss f0_5)].

(** A run whose second epoch reports a NaN loss. *)
Definition nan_run : list (Z * option (gmap string float)) :=
  [(0, loss f0_5); (1, loss nan); (2, loss f0_9)].

End Demo.

(** ** Further observations on calls and runs *)

Section MoreObservations.

Context {FS Model : Type}.

Definition is_print (e : event Model) : bool :=
  match e with EvPrint _ => true | _ => false end.
Definition is_exists (e : event Model) : bool :=
  match e with EvExists _ => true | _ => false end.
Definition is_makedirs (e : event Model) : bool :=
  match e with EvMakedirs _ => true | _ => false end.

(** The call entered [_save_model]: its first statement tests the
    directory. *)
Definition reached_save (evs : list (event Model)) : bool := existsb is_exists evs.

(** How many lines the call printed, and how often it called
    [torch.save]. *)
Definition prints (evs : list (event Model)) : nat :=
  length (List.filter is_print evs).
Definition saves (evs : list (event Model)) : nat :=
  length (List.filter is_torch_save evs).

(** How many calls of a run resolved the path template. *)
Definition attempts
    (outs : list (result unit * ModelCheckpoint Model * FS * list (event Model)))
    : nat :=
  length (List.filter (fun o => attempted (events o)) outs).

(** What [_save_model] hands to [torch.save] for this object. *)
Definition payload_of (s : ModelCheckpoint Model) (m : Model) : payload Model :=
  if save_weights_only s then StateDict m else FullModel m.

(** The attributes [on_epoch_end] never assigns. *)
Definition same_config (s1 s2 : ModelCheckpoint Model) : Prop :=
  filepath s1 = filepath s2 /\ monitor s1 = monitor s2 /\
  verbose s1 = verbose s2 /\ save_best_only s1 = save_best_only s2 /\
  save_weights_only s1 = save_weights_only s2 /\ period s1 = period s2 /\
  monitor_op s1 = monitor_op s2 /\ model s1 = model s2.

(** [a] is strictly better than [b] in the direction of [op]. *)
Definition better (op : monitor_fn) (a b : float) : bool :=
  match op with
  | Min => lt a b
  | Max => lt b a
  end.

Definition not_worse (op : monitor_fn) (a b : float) : Prop :=
  a = b \/ better op a b = true.

(** The monitored metric, when [logs] has it, is not a NaN. *)
Definition reports_number (monitor : string) (logs : option (gmap string float))
    : Prop :=
  forall x, default ∅ logs !! monitor = Some x -> is_nan x = false.

End MoreObservations.

(** ** A save attempt, and the state a call of a run starts from *)

Section Cadence.

Context {FS Model : Type} `{Platform FS Model}.

(** A save attempt, step by step: the counter is reset; the path is
    resolved, and a failure to resolve ends the call; with
    [save_best_only] off the model is saved under the resolved path;
    with it on, a missing metric skips the save, a metric that passes the
    test becomes [best] and the model is saved, and any other metric is
    only reported.  Saving is [_save_model]; every report is printed only
    when verbose. *)
Definition save_attempt (epoch : Z) (logs : option (gmap string float))
    (s : ModelCheckpoint Model) (fs : FS)
    : result unit * ModelCheckpoint Model * FS * list (event Model) :=
  let metrics := default ∅ logs in
  let resolving := EvFormat (filepath s) (epoch + 1) metrics in
  match format_filepath (filepath s) (epoch + 1) metrics with
  | Raise e => (Raise e, reset s, fs, [resolving])
  | Ok path =>
      if save_best_only s then
        match metrics !! monitor s with
        | None =>
            (Ok tt, reset s, fs, resolving :: printed s (MsgSkipping (monitor s)))
        | Some current =>
            if improved (monitor_op s) current (best s) then
              let '(r, s1, fs1, evs) :=
                _save_model epoch path (set_best current (reset s)) fs in
              (r, s1, fs1,
               resolving
                 :: printed s (MsgImproved (epoch + 1) (monitor s) (best s) current path)
                 ++ evs)
            else
              (Ok tt, reset s, fs,
               resolving :: printed s (MsgNotImproved (epoch + 1) (monitor s) (best s)))
        end
      else
        let '(r, s1, fs1, evs) := _save_model epoch path (reset s) fs in
        (r, s1, fs1, resolving :: printed s (MsgSaving (epoch + 1) path) ++ evs)
  end.

(** The object and the file system after the first [n] calls of a run,
    that is, what call number [n + 1] starts from. *)
Fixpoint state_after (calls : list (Z * option (gmap string float))) (n : nat)
    (s : ModelCheckpoint Model) (fs : FS) : ModelCheckpoint Model * FS :=
  match n, calls with
  | S n', (epoch, logs) :: rest =>
      state_after rest n'
        (self_after (on_epoch_end epoch logs s fs))
        (fs_after (on_epoch_end epoch logs s fs))
  | _, _ => (s, fs)
  end.

End Cadence.

(** * Properties *)

(** ** Floats: comparison, [min] and [max] *)

Section FloatFacts.

Lemma compare_cont_swap (p q : positive) :
  Pos.compare_cont Eq q p = CompOpp (Pos.compare_cont Eq p q).
Proof. symmetry. apply (Pos.compare_cont_antisym p q Eq). Qed.

(** Swapping the arguments of a comparison reverses its answer. *)
Lemma SFcompare_swap (a b : float) :
  SFcompare b a = option_map CompOpp (SFcompare a b).
Proof.
  destruct a as [sa|sa| |sa ma ea], b as [sb|sb| |sb mb eb]; simpl;
    try reflexivity;
    try (destruct sa; reflexivity);
    try (destruct sb; reflexivity);
    try (destruct sa, sb; reflexivity).
  destruct sa, sb; simpl; try reflexivity.
  - rewrite (Z.compare_antisym ea eb).
    destruct (ea ?= eb) eqn:He; simpl; try reflexivity.
    now rewrite (compare_cont_swap ma mb).
  - rewrite (Z.compare_antisym ea eb).
    destruct (ea ?= eb) eqn:He; simpl; try reflexivity.
    now rewrite (compare_cont_swap ma mb).
Qed.

Lemma eq_sym_float (a b : float) : eq a b = eq b a.
Proof.
  unfold eq, SFeqb. rewrite (SFcompare_swap a b).
  destruct (SFcompare a b) as [[]|]; reflexivity.
Qed.

Lemma eq_not_lt (a b : float) : eq a b = true -> lt a b = false /\ lt b a = false.
Proof.
  unfold eq, lt, SFeqb, SFltb. rewrite (SFcompare_swap a b).
  destruct (SFcompare a b) as [[]|]; simpl; intros Heq; try discriminate; auto.
Qed.

Lemma lt_not_eq (a b : float) : lt a b = true -> eq a b = false /\ lt b a = false.
Proof.
  unfold eq, lt, SFeqb, SFltb. rewrite (SFcompare_swap a b).
  destruct (SFcompare a b) as [[]|]; simpl; intros Hlt; try discriminate; auto.
Qed.

(** Two numbers (not NaN) are equal or one is below the other. *)
Lemma float_trichotomy (a b : float) :
  is_nan a = false -> is_nan b = false ->
  lt a b = true \/ eq a b = true \/ lt b a = true.
Proof.
  intros Ha Hb. unfold eq, lt, SFeqb, SFltb. rewrite (SFcompare_swap a b).
  destruct (SFcompare a b) as [[]|] eqn:Hc; simpl; auto.
  destruct a, b; simpl in *; discriminate.
Qed.

Lemma eq_refl_number (x : float) : is_nan x = false -> eq x x = true.
Proof.
  unfold eq, SFeqb. destruct x as [s|s| |s m e]; simpl;
    try discriminate; try (destruct s; reflexivity).
  intros _. destruct s; rewrite Z.compare_refl;
    rewrite (Pos.compare_cont_refl m Eq); reflexivity.
Qed.

(** A tie is not an improvement, whatever the direction. *)
Lemma improved_tie (op : monitor_fn) (current best : float) :
  eq current best = true -> improved op current best = false.
Proof.
  intros Heq. destruct (eq_not_lt _ _ Heq) as [H1 H2].
  unfold improved, ne, call_op, py_min, py_max, gt, lt, eq in *.
  destruct op.
  - now rewrite H2, Heq.
  - now rewrite H1, Heq.
Qed.

(** On numbers the test is the strict order of the direction. *)
Lemma improved_min_number (current best : float) :
  is_nan current = false -> is_nan best = false ->
  improved Min current best = lt current best.
Proof.
  intros Hc Hb. pose proof (eq_refl_number best Hb) as Hbb.
  destruct (float_trichotomy current best Hc Hb) as [Hlt | [Heq | Hgt]].
  - destruct (lt_not_eq _ _ Hlt) as [Hne Hnl].
    unfold improved, ne, call_op, py_min, lt, eq in *.
    now rewrite Hnl, Hlt, Hne.
  - destruct (eq_not_lt _ _ Heq) as [H1 H2].
    unfold improved, ne, call_op, py_min, lt, eq in *.
    now rewrite H2, H1, Heq.
  - destruct (lt_not_eq _ _ Hgt) as [Hne Hnl].
    unfold improved, ne, call_op, py_min, lt, eq in *.
    now rewrite Hgt, Hnl, Hbb.
Qed.

Lemma improved_max_number (current best : float) :
  is_nan current = false -> is_nan best = false ->
  improved Max current best = lt best current.
Proof.
  intros Hc Hb. pose proof (eq_refl_number best Hb) as Hbb.
  destruct (float_trichotomy current best Hc Hb) as [Hlt | [Heq | Hgt]].
  - destruct (lt_not_eq _ _ Hlt) as [Hne Hnl].
    unfold improved, ne, call_op, py_max, gt, lt, eq in *.
    now rewrite Hlt, Hnl, Hbb.
  - destruct (eq_not_lt _ _ Heq) as [H1 H2].
    unfold improved, ne, call_op, py_max, gt, lt, eq in *.
    now rewrite H1, H2, Heq.
  - destruct (lt_not_eq _ _ Hgt) as [Hne Hnl]. rewrite eq_sym_float in Hne.
    unfold improved, ne, call_op, py_max, gt, lt, eq in *.
    now rewrite Hnl, Hgt, Hne.
Qed.

(** A NaN metric always passes the test, and so does any metric once
    [best] is NaN. *)
Lemma improved_nan_current (op : monitor_fn) (best : float) :
  improved op nan best = true.
Proof. destruct op, best; reflexivity. Qed.

Lemma improved_nan_best (op : monitor_fn) (current : float) :
  improved op current nan = true.
Proof.
  unfold improved, ne, call_op, py_min, py_max, gt, lt, SFltb, SFeqb.
  destruct op, current; reflexivity.
Qed.

End FloatFacts.

(** ** Strings: substring test and [os.path.dirname] *)

Section StringFacts.

Lemma prefix_app (sub s : string) :
  String.prefix sub s = true <-> exists post, s = sub +:+ post.
Proof.
  revert s. induction sub as [|a sub IH]; intros s.
  - split; [intros _; exists s; reflexivity | intros _; now destruct s].
  - destruct s as [|b s]; simpl.
    + split; [discriminate | intros [post Hp]; discriminate].
    + destruct (ascii_dec a b) as [->|Hab].
      * rewrite IH. split; intros [post Hp]; exists post.
        -- now rewrite Hp.
        -- now inversion Hp.
      * split; [discriminate | intros [post Hp]; inversion Hp; congruence].
Qed.

(** [py_in sub s] holds exactly when [sub] occurs in [s]. *)
Lemma py_in_spec (sub s : string) :
  py_in sub s = true <-> exists pre post, s = pre +:+ sub +:+ post.
Proof.
  induction s as [|c s IH].
  - change (py_in sub EmptyString) with (String.prefix sub EmptyString || false).
    rewrite orb_false_r, prefix_app. split.
    + intros [post Hp]. now exists EmptyString, post.
    + intros [pre [post Hp]]. destruct pre; simpl in Hp; [| discriminate].
      now exists post.
  - change (py_in sub (String c s))
      with (String.prefix sub (String c s) || py_in sub s).
    rewrite orb_true_iff, IH, prefix_app. split.
    + intros [[post Hp] | [pre [post Hp]]].
      * now exists EmptyString, post.
      * exists (String c pre), post. simpl. now rewrite Hp.
    + intros [pre [post Hp]]. destruct pre as [|d pre]; simpl in Hp.
      * left. now exists post.
      * right. inversion Hp; subst. now exists pre, post.
Qed.

Lemma upto_last_sep_empty (p : string) :
  upto_last_sep p = EmptyString <-> has_char "/" p = false.
Proof.
  induction p as [|c p IH]; simpl; [tauto |].
  unfold is_sep. destruct (upto_last_sep p) eqn:Hu; simpl.
  - destruct (Ascii.eqb c "/"); simpl.
    + split; discriminate.
    + tauto.
  - split; [discriminate |].
    rewrite orb_false_iff. intros [_ Hp]. apply IH in Hp. discriminate.
Qed.

Lemma rstrip_sep_empty (s : string) :
  rstrip_sep s = EmptyString -> all_sep s = true.
Proof.
  induction s as [|c s IH]; simpl; [reflexivity |].
  destruct (is_sep c); simpl; [| discriminate].
  destruct (rstrip_sep s); simpl; [auto | discriminate].
Qed.

(** A path has an empty directory part exactly when it is a bare file
    name: it contains no separator. *)
Lemma dirname_empty_iff (p : string) :
  os_path_dirname p = EmptyString <-> has_char "/" p = false.
Proof.
  rewrite <- upto_last_sep_empty. unfold os_path_dirname.
  destruct (upto_last_sep p) as [|c h] eqn:Hu; [simpl; tauto |].
  cbn [is_empty negb andb].
  destruct (all_sep (String c h)) eqn:Ha; cbn [negb].
  - tauto.
  - split; [| discriminate].
    intros Hr. apply rstrip_sep_empty in Hr. congruence.
Qed.

End StringFacts.

(** ** The callback, branch by branch *)

Ltac simpl_fields :=
  cbn [period epochs_since_last_save filepath monitor verbose save_best_only
       save_weights_only best monitor_op model set_epochs_since_last_save
       set_best default].

Ltac unfold_save :=
  unfold _save_model, get_model, bind, modify_self, get_self,
    emit, on_fs, when, ret, raise;
  simpl_fields.

Ltac unfold_epoch :=
  unfold on_epoch_end, py_print, bind, modify_self, get_self,
    emit, of_result, when, ret, printed, reset;
  simpl_fields.

Section CallbackFacts.

Context {FS Model : Type} `{Platform FS Model}.

Implicit Types (s : ModelCheckpoint Model) (fs : FS) (epoch : Z)
  (logs : option (gmap string float)) (path : string).

(** [_save_model] reads [self] and never assigns to it. *)
Lemma _save_model_self epoch path s fs :
  self_after (_save_model epoch path s fs) = s.
Proof.
  unfold_save.
  destruct (os_path_exists (os_path_dirname path) fs); cbn [negb];
    [| destruct (os_makedirs (os_path_dirname path) fs) as [[u|e] fs1]; [|reflexivity]];
    destruct (save_weights_only s), (model s) as [m|]; try reflexivity;
    match goal with |- context [torch_save ?p ?q ?f] =>
      destruct (torch_save p q f) as [[u'|e'] fs2] end; reflexivity.
Qed.

(** Cadence not reached: only the counter moves. *)
Lemma on_epoch_end_idle epoch logs s fs :
  epochs_since_last_save s + 1 < period s ->
  on_epoch_end epoch logs s fs =
    (Ok tt, set_epochs_since_last_save (epochs_since_last_save s + 1) s, fs, []).
Proof.
  intros Hlt. unfold_epoch.
  destruct (Z.leb_spec (period s) (epochs_since_last_save s + 1)); [lia | reflexivity].
Qed.

(** Cadence reached and the template does not resolve. *)
Lemma on_epoch_end_unresolved epoch logs s fs e :
  period s <= epochs_since_last_save s + 1 ->
  format_filepath (filepath s) (epoch + 1) (default ∅ logs) = Raise e ->
  on_epoch_end epoch logs s fs =
    (Raise e, reset s, fs, [EvFormat (filepath s) (epoch + 1) (default ∅ logs)]).
Proof.
  intros Hle Hf. unfold_epoch.
  destruct (Z.leb_spec (period s) (epochs_since_last_save s + 1)); [| lia].
  now rewrite Hf.
Qed.

(** Cadence reached, path resolved, [save_best_only] off. *)
Lemma on_epoch_end_always epoch logs s fs path :
  period s <= epochs_since_last_save s + 1 ->
  format_filepath (filepath s) (epoch + 1) (default ∅ logs) = Ok path ->
  save_best_only s = false ->
  on_epoch_end epoch logs s fs =
    let '(r, s1, fs1, evs) := _save_model epoch path (reset s) fs in
    (r, s1, fs1,
     EvFormat (filepath s) (epoch + 1) (default ∅ logs)
       :: printed s (MsgSaving (epoch + 1) path) ++ evs).
Proof.
  intros Hle Hf Hb. unfold_epoch.
  destruct (Z.leb_spec (period s) (epochs_since_last_save s + 1)); [| lia].
  rewrite Hf, Hb.
  destruct (0 <? verbose s); simpl_fields;
    destruct (_save_model epoch path _ fs) as [[[r s1] fs1] evs];
    destruct r; reflexivity.
Qed.

(** Cadence reached, path resolved, [save_best_only] on, no metric. *)
Lemma on_epoch_end_missing epoch logs s fs path :
  period s <= epochs_since_last_save s + 1 ->
  format_filepath (filepath s) (epoch + 1) (default ∅ logs) = Ok path ->
  save_best_only s = true ->
  default ∅ logs !! monitor s = None ->
  on_epoch_end epoch logs s fs =
    (Ok tt, reset s, fs,
     EvFormat (filepath s) (epoch + 1) (default ∅ logs)
       :: printed s (MsgSkipping (monitor s))).
Proof.
  intros Hle Hf Hb Hm. unfold_epoch.
  destruct (Z.leb_spec (period s) (epochs_since_last_save s + 1)); [| lia].
  rewrite Hf, Hb, Hm.
  destruct (0 <? verbose s); reflexivity.
Qed.

(** Cadence reached, path resolved, [save_best_only] on, the metric
    does not pass the test. *)
Lemma on_epoch_end_not_improved epoch logs s fs path current :
  period s <= epochs_since_last_save s + 1 ->
  format_filepath (filepath s) (epoch + 1) (default ∅ logs) = Ok path ->
  save_best_only s = true ->
  default ∅ logs !! monitor s = Some current ->
  improved (monitor_op s) current (best s) = false ->
  on_epoch_end epoch logs s fs =
    (Ok tt, reset s, fs,
     EvFormat (filepath s) (epoch + 1) (default ∅ logs)
       :: printed s (MsgNotImproved (epoch + 1) (monitor s) (best s))).
Proof.
  intros Hle Hf Hb Hm Hi. unfold_epoch.
  destruct (Z.leb_spec (period s) (epochs_since_last_save s + 1)); [| lia].
  rewrite Hf, Hb, Hm. simpl_fields. rewrite Hi.
  destruct (0 <? verbose s); reflexivity.
Qed.

(** Cadence reached, path resolved, [save_best_only] on, the metric
    passes the test: [best] is assigned, then [_save_model] runs. *)
Lemma on_epoch_end_improved epoch logs s fs path current :
  period s <= epochs_since_last_save s + 1 ->
  format_filepath (filepath s) (epoch + 1) (default ∅ logs) = Ok path ->
  save_best_only s = true ->
  default ∅ logs !! monitor s = Some current ->
  improved (monitor_op s) current (best s) = true ->
  on_epoch_end epoch logs s fs =
    let '(r, s1, fs1, evs) := _save_model epoch path (set_best current (reset s)) fs in
    (r, s1, fs1,
     EvFormat (filepath s) (epoch + 1) (default ∅ logs)
       :: printed s (MsgImproved (epoch + 1) (monitor s) (best s) current path)
       ++ evs).
Proof.
  intros Hle Hf Hb Hm Hi. unfold_epoch.
  destruct (Z.leb_spec (period s) (epochs_since_last_save s + 1)); [| lia].
  rewrite Hf, Hb, Hm. simpl_fields. rewrite Hi.
  destruct (0 <? verbose s); simpl_fields;
    destruct (_save_model epoch path _ fs) as [[[r s1] fs1] evs];
    destruct r; reflexivity.
Qed.

(** [_save_model] never resolves a path template. *)
Lemma _save_model_events epoch path s fs :
  attempted (events (_save_model epoch path s fs)) = false.
Proof.
  unfold_save. unfold attempted.
  destruct (os_path_exists (os_path_dirname path) fs); cbn [negb];
    [| destruct (os_makedirs (os_path_dirname path) fs) as [[u|e] fs1]; [|reflexivity]];
    destruct (save_weights_only s), (model s) as [m|]; try reflexivity;
    match goal with |- context [torch_save ?p ?q ?f] =>
      destruct (torch_save p q f) as [[u'|e'] fs2] end; reflexivity.
Qed.

(** After any call the counter is 0 (cadence reached) or one more than
    before, the period is what it was, and the path was resolved exactly
    when the cadence was reached. *)
Lemma on_epoch_end_counter epoch logs s fs :
  let '(r, s1, fs1, evs) := on_epoch_end epoch logs s fs in
  period s1 = period s /\
  epochs_since_last_save s1 =
    (if period s <=? epochs_since_last_save s + 1 then 0
     else epochs_since_last_save s + 1) /\
  attempted evs = (period s <=? epochs_since_last_save s + 1).
Proof.
  destruct (Z.leb_spec (period s) (epochs_since_last_save s + 1)) as [Hle|Hlt].
  2:{ rewrite on_epoch_end_idle by lia. repeat split. }
  destruct (format_filepath (filepath s) (epoch + 1) (default ∅ logs))
    as [path|e] eqn:Hf.
  2:{ rewrite (on_epoch_end_unresolved _ _ _ _ e) by assumption. repeat split. }
  destruct (save_best_only s) eqn:Hb.
  - destruct (default ∅ logs !! monitor s) as [current|] eqn:Hm.
    + destruct (improved (monitor_op s) current (best s)) eqn:Hi.
      * rewrite (on_epoch_end_improved _ _ _ _ path current) by assumption.
        pose proof (_save_model_self epoch path (set_best current (reset s)) fs) as Hs.
        destruct (_save_model epoch path (set_best current (reset s)) fs)
          as [[[r s1] fs1] evs]. cbn in Hs. subst s1. repeat split.
      * rewrite (on_epoch_end_not_improved _ _ _ _ path current) by assumption.
        repeat split.
    + rewrite (on_epoch_end_missing _ _ _ _ path) by assumption. repeat split.
  - rewrite (on_epoch_end_always _ _ _ _ path) by assumption.
    pose proof (_save_model_self epoch path (reset s) fs) as Hs.
    destruct (_save_model epoch path (reset s) fs) as [[[r s1] fs1] evs].
    cbn in Hs. subst s1. repeat split.
Qed.

End CallbackFacts.

(** ** The reference platform obeys the laws of the empty path *)

#[global] Instance sim_empty_path : EmptyPathLaws Sim.FS Sim.Model.
Proof. split; intros fs; reflexivity. Qed.

(** ** The constructor *)

Section Constructor.

Context {Model : Type}.

Lemma init_counter filepath monitor verbose sbo mode swo (n : Z) :
  epochs_since_last_save
    (__init__ (Model := Model) filepath monitor verbose sbo mode swo n) = 0
  /\ period (__init__ (Model := Model) filepath monitor verbose sbo mode swo n) = n.
Proof.
  unfold __init__.
  destruct (String.eqb mode "auto"), (String.eqb mode "min"), (py_in "acc" monitor);
    split; reflexivity.
Qed.

(** C6. With [mode='auto'] the constructor picks [max] and a best value
    of minus infinity when the monitored name contains ["acc"], and [min]
    and plus infinity for every other name. *)
Theorem auto_mode_follows_name filepath monitor verbose sbo swo period :
  let s := __init__ (Model := Model) filepath monitor verbose sbo "auto" swo period in
  ((exists pre post, monitor = pre +:+ "acc" +:+ post) ->
     monitor_op s = Max /\ best s = neg_inf) /\
  (~ (exists pre post, monitor = pre +:+ "acc" +:+ post) ->
     monitor_op s = Min /\ best s = inf).
Proof.
  cbv zeta. unfold __init__. cbn [String.eqb Ascii.eqb Bool.eqb].
  destruct (py_in "acc" monitor) eqn:Hin; split; intros Hsub.
  - split; reflexivity.
  - exfalso. apply Hsub. now apply py_in_spec.
  - apply py_in_spec in Hsub. congruence.
  - split; reflexivity.
Qed.

(** C9. Every [mode] other than ['min'] and ['auto'] gives [max] and a
    best value of minus infinity; the constructor has no failing path. *)
Theorem other_modes_maximize filepath monitor verbose sbo mode swo period :
  mode <> "min" -> mode <> "auto" ->
  let s := __init__ (Model := Model) filepath monitor verbose sbo mode swo period in
  monitor_op s = Max /\ best s = neg_inf.
Proof.
  intros Hmin Hauto. cbv zeta. unfold __init__.
  apply String.eqb_neq in Hmin. apply String.eqb_neq in Hauto.
  rewrite Hmin, Hauto. split; reflexivity.
Qed.

End Constructor.

Lemma auto_mode_follows_name_witness :
  (exists pre post, "val_acc" = pre +:+ "acc" +:+ post) /\
  monitor_op (__init__ (Model := nat) "ckpt/m.pt" "val_acc" 0 true "auto" false 1) = Max /\
  best (__init__ (Model := nat) "ckpt/m.pt" "val_acc" 0 true "auto" false 1) = neg_inf /\
  ~ (exists pre post, "val_loss" = pre +:+ "acc" +:+ post) /\
  monitor_op (__init__ (Model := nat) "ckpt/m.pt" "val_loss" 0 true "auto" false 1) = Min /\
  best (__init__ (Model := nat) "ckpt/m.pt" "val_loss" 0 true "auto" false 1) = inf.
Proof.
  assert (Hacc : exists pre post, "val_acc" = pre +:+ "acc" +:+ post)
    by (exists "val_", ""; reflexivity).
  assert (Hloss : ~ (exists pre post, "val_loss" = pre +:+ "acc" +:+ post)).
  { intros Hsub. apply py_in_spec in Hsub. vm_compute in Hsub. discriminate. }
  split; [exact Hacc |].
  split; [exact (proj1 (proj1 (auto_mode_follows_name (Model := nat)
            "ckpt/m.pt" "val_acc" 0 true false 1) Hacc)) |].
  split; [exact (proj2 (proj1 (auto_mode_follows_name (Model := nat)
            "ckpt/m.pt" "val_acc" 0 true false 1) Hacc)) |].
  split; [exact Hloss |].
  split; [exact (proj1 (proj2 (auto_mode_follows_name (Model := nat)
            "ckpt/m.pt" "val_loss" 0 true false 1) Hloss)) |].
  exact (proj2 (proj2 (auto_mode_follows_name (Model := nat)
            "ckpt/m.pt" "val_loss" 0 true false 1) Hloss)).
Defined.

Lemma other_modes_maximize_witness :
  "maximum" <> "min" /\ "maximum" <> "auto" /\
  monitor_op (__init__ (Model := nat) "ckpt/m.pt" "val_loss" 0 true "maximum" false 1) = Max /\
  best (__init__ (Model := nat) "ckpt/m.pt" "val_loss" 0 true "maximum" false 1) = neg_inf.
Proof.
  assert (H1 : "maximum" <> "min") by discriminate.
  assert (H2 : "maximum" <> "auto") by discriminate.
  split; [exact H1 |]. split; [exact H2 |].
  exact (other_modes_maximize (Model := nat) "ckpt/m.pt" "val_loss" 0 true
           "maximum" false 1 H1 H2).
Defined.

(** ** One call of [on_epoch_end] *)

Section EpochEnd.

Context {FS Model : Type} `{Platform FS Model}.

Implicit Types (s : ModelCheckpoint Model) (fs : FS) (epoch : Z)
  (logs : option (gmap string float)) (path : string).

(** C8. When the incremented counter is still below the period, the call
    returns normally and only the counter has changed: the file system is
    the same, [best] is the same and no event was emitted (no path
    resolution, no print, no save), whatever [save_best_only] and the
    metrics are. *)
Theorem below_cadence_only_counts epoch logs s fs :
  epochs_since_last_save s + 1 < period s ->
  on_epoch_end epoch logs s fs =
    (Ok tt, set_epochs_since_last_save (epochs_since_last_save s + 1) s, fs, [])
  /\ best (self_after (on_epoch_end epoch logs s fs)) = best s
  /\ attempted (events (on_epoch_end epoch logs s fs)) = false.
Proof.
  intros Hlt. rewrite (on_epoch_end_idle epoch logs s fs Hlt).
  repeat split.
Qed.

(** C2 (as amended). When the cadence is reached and the path template
    does not resolve, the exception leaves [on_epoch_end] before any
    comparison: [best] is what it was before the call, the counter has
    been reset to 0, and nothing was printed or saved. *)
Theorem unresolved_path_precedes_comparison epoch logs s fs e :
  period s <= epochs_since_last_save s + 1 ->
  format_filepath (filepath s) (epoch + 1) (default ∅ logs) = Raise e ->
  on_epoch_end epoch logs s fs =
    (Raise e, reset s, fs, [EvFormat (filepath s) (epoch + 1) (default ∅ logs)])
  /\ best (reset s) = best s
  /\ epochs_since_last_save (reset s) = 0.
Proof.
  intros Hle Hf. rewrite (on_epoch_end_unresolved epoch logs s fs e Hle Hf).
  repeat split.
Qed.

(** C4 (as amended). With [save_best_only] on, when the cadence is
    reached, the path template resolves and the monitored metric is not
    in [logs], the call returns normally, saves nothing, leaves [best] as
    it was and the counter at 0; it prints the skip message when
    verbose. *)
Theorem missing_metric_skips epoch logs s fs path :
  period s <= epochs_since_last_save s + 1 ->
  format_filepath (filepath s) (epoch + 1) (default ∅ logs) = Ok path ->
  save_best_only s = true ->
  default ∅ logs !! monitor s = None ->
  on_epoch_end epoch logs s fs =
    (Ok tt, reset s, fs,
     EvFormat (filepath s) (epoch + 1) (default ∅ logs)
       :: printed s (MsgSkipping (monitor s)))
  /\ persisted (events (on_epoch_end epoch logs s fs)) = false
  /\ best (reset s) = best s
  /\ epochs_since_last_save (reset s) = 0.
Proof.
  intros Hle Hf Hb Hm.
  rewrite (on_epoch_end_missing epoch logs s fs path Hle Hf Hb Hm).
  repeat split. unfold printed. now destruct (0 <? verbose s).
Qed.

(** C1 (as amended). With [save_best_only] on, when the current value of
    the monitored metric equals [best], the test fails: [best] is not
    assigned, nothing is saved, and the call returns after the
    did-not-improve message (when verbose). *)
Theorem tie_is_not_saved epoch logs s fs path current :
  period s <= epochs_since_last_save s + 1 ->
  format_filepath (filepath s) (epoch + 1) (default ∅ logs) = Ok path ->
  save_best_only s = true ->
  default ∅ logs !! monitor s = Some current ->
  eq current (best s) = true ->
  on_epoch_end epoch logs s fs =
    (Ok tt, reset s, fs,
     EvFormat (filepath s) (epoch + 1) (default ∅ logs)
       :: printed s (MsgNotImproved (epoch + 1) (monitor s) (best s)))
  /\ persisted (events (on_epoch_end epoch logs s fs)) = false
  /\ best (reset s) = best s.
Proof.
  intros Hle Hf Hb Hm Heq.
  pose proof (improved_tie (monitor_op s) current (best s) Heq) as Hi.
  rewrite (on_epoch_end_not_improved epoch logs s fs path current Hle Hf Hb Hm Hi).
  repeat split. unfold printed. now destruct (0 <? verbose s).
Qed.

(** C5. [_save_model] is called either with [save_best_only] off, on
    the object with its counter reset, or with it on after the metric
    passed the test, on the object with its counter reset and [best]
    assigned.  When that call raises, the exception leaves
    [on_epoch_end] and nothing is rolled back: the object is the one
    [_save_model] was called on, with the counter at 0 and, in the second
    case, [best] equal to the current metric; the file system is the one
    the failed save left. *)
Theorem failed_save_keeps_updates epoch logs s fs path e
    (sm : ModelCheckpoint Model) :
  period s <= epochs_since_last_save s + 1 ->
  format_filepath (filepath s) (epoch + 1) (default ∅ logs) = Ok path ->
  (save_best_only s = false /\ sm = reset s) \/
  (save_best_only s = true /\
   exists current,
     default ∅ logs !! monitor s = Some current /\
     improved (monitor_op s) current (best s) = true /\
     sm = set_best current (reset s)) ->
  outcome (_save_model epoch path sm fs) = Raise e ->
  outcome (on_epoch_end epoch logs s fs) = Raise e
  /\ self_after (on_epoch_end epoch logs s fs) = sm
  /\ epochs_since_last_save sm = 0
  /\ (save_best_only s = true -> default ∅ logs !! monitor s = Some (best sm))
  /\ (save_best_only s = false -> best sm = best s)
  /\ fs_after (on_epoch_end epoch logs s fs) = fs_after (_save_model epoch path sm fs).
Proof.
  intros Hle Hf Hcase Hraise.
  pose proof (_save_model_self epoch path sm fs) as Hs.
  destruct Hcase as [[Hb ->] | [Hb (current & Hm & Hi & ->)]].
  - rewrite (on_epoch_end_always epoch logs s fs path Hle Hf Hb).
    destruct (_save_model epoch path (reset s) fs) as [[[r s1] fs1] evs].
    cbn in Hs, Hraise |- *. subst.
    repeat split; congruence.
  - rewrite (on_epoch_end_improved epoch logs s fs path current Hle Hf Hb Hm Hi).
    destruct (_save_model epoch path (set_best current (reset s)) fs)
      as [[[r s1] fs1] evs].
    cbn in Hs, Hraise |- *. subst.
    repeat split; solve [assumption | congruence].
Qed.

(** C10. When [os.path.dirname] of the resolved path is empty (a bare
    file name), [_save_model] finds that the empty path does not exist,
    calls [os.makedirs] on it and the call raises: [torch.save] is never
    reached and the file system is untouched. *)
Theorem bare_filename_never_saved `{!EmptyPathLaws FS Model} epoch path s fs :
  os_path_dirname path = EmptyString ->
  _save_model epoch path s fs =
    (Raise (OSError ENOENT ""), s, fs, [EvExists ""; EvMakedirs ""])
  /\ persisted (events (_save_model epoch path s fs)) = false.
Proof.
  intros Hd.
  assert (Heq : _save_model epoch path s fs =
                (Raise (OSError ENOENT ""), s, fs, [EvExists ""; EvMakedirs ""])).
  { unfold_save. rewrite Hd, exists_empty. cbn [negb].
    now rewrite makedirs_empty. }
  rewrite Heq. split; reflexivity.
Qed.

End EpochEnd.

(** ** A sequence of calls *)

Section Run.

Context {FS Model : Type} `{Platform FS Model}.

Implicit Types (s : ModelCheckpoint Model) (fs : FS)
  (calls : list (Z * option (gmap string float))).

(** One call moves the counter one step around the cycle of length
    [period], and resolves the path exactly when it comes back to 0. *)
Lemma on_epoch_end_cycle epoch logs s fs :
  0 <= epochs_since_last_save s < period s ->
  let '(r, s1, fs1, evs) := on_epoch_end epoch logs s fs in
  period s1 = period s /\
  epochs_since_last_save s1 = (epochs_since_last_save s + 1) mod period s /\
  attempted evs = ((epochs_since_last_save s + 1) mod period s =? 0).
Proof.
  intros Hc. pose proof (on_epoch_end_counter epoch logs s fs) as Hstep.
  destruct (on_epoch_end epoch logs s fs) as [[[r s1] fs1] evs].
  destruct Hstep as (Hp & Hn & Ha). split; [exact Hp |].
  rewrite Hn, Ha.
  destruct (Z.leb_spec (period s) (epochs_since_last_save s + 1)) as [Hle|Hlt].
  - assert (Heq : epochs_since_last_save s + 1 = period s) by lia.
    rewrite Heq, Z_mod_same_full. split; reflexivity.
  - rewrite Z.mod_small by lia. split; [reflexivity |].
    symmetry. apply Z.eqb_neq. lia.
Qed.

(** The state after the [k+1]-th call of a run that starts with the
    counter at [c]. *)
Lemma run_cycle calls : forall s fs (k : nat),
  0 <= epochs_since_last_save s < period s ->
  (k < length calls)%nat ->
  exists r s1 fs1 evs,
    run calls s fs !! k = Some (r, s1, fs1, evs) /\
    period s1 = period s /\
    epochs_since_last_save s1 =
      (epochs_since_last_save s + Z.of_nat (S k)) mod period s /\
    attempted evs =
      ((epochs_since_last_save s + Z.of_nat (S k)) mod period s =? 0).
Proof.
  induction calls as [|[epoch logs] calls IH]; intros s fs k Hc Hk;
    [simpl in Hk; lia |].
  pose proof (on_epoch_end_cycle epoch logs s fs Hc) as Hstep.
  cbn [run].
  destruct (on_epoch_end epoch logs s fs) as [[[r s1] fs1] evs].
  destruct Hstep as (Hp & Hn & Ha).
  destruct k as [|k].
  - exists r, s1, fs1, evs. cbn. rewrite Hn, Ha. repeat split. exact Hp.
  - assert (Hc1 : 0 <= epochs_since_last_save s1 < period s1).
    { rewrite Hn, Hp. apply Z.mod_pos_bound. lia. }
    assert (Hk1 : (k < length calls)%nat) by (simpl in Hk; lia).
    destruct (IH s1 fs1 k Hc1 Hk1) as (r' & s' & fs' & evs' & Hl & Hp' & Hn' & Ha').
    exists r', s', fs', evs'. cbn [lookup list_lookup]. split; [exact Hl |].
    assert (Hmod : (epochs_since_last_save s1 + Z.of_nat (S k)) mod period s
                   = (epochs_since_last_save s + Z.of_nat (S (S k))) mod period s).
    { rewrite Hn, Zplus_mod_idemp_l. f_equal. lia. }
    rewrite Hp in Hp', Hn', Ha'. rewrite Hmod in Hn', Ha'.
    repeat split; assumption.
Qed.

(** At the cadence a call is a save attempt. *)
Lemma on_epoch_end_attempt epoch logs s fs :
  period s <= epochs_since_last_save s + 1 ->
  on_epoch_end epoch logs s fs = save_attempt epoch logs s fs.
Proof.
  intros Hle. unfold save_attempt.
  destruct (format_filepath (filepath s) (epoch + 1) (default ∅ logs))
    as [path|e] eqn:Hf.
  2:{ now apply on_epoch_end_unresolved. }
  destruct (save_best_only s) eqn:Hb.
  - destruct (default ∅ logs !! monitor s) as [current|] eqn:Hm.
    + destruct (improved (monitor_op s) current (best s)) eqn:Hi.
      * now apply on_epoch_end_improved.
      * now apply (on_epoch_end_not_improved epoch logs s fs path current).
    + now apply (on_epoch_end_missing epoch logs s fs path).
  - now apply on_epoch_end_always.
Qed.

(** A call assigns nothing but the counter and [best]. *)
Lemma on_epoch_end_config epoch logs s fs :
  same_config (self_after (on_epoch_end epoch logs s fs)) s.
Proof.
  unfold same_config.
  destruct (Z.leb_spec (period s) (epochs_since_last_save s + 1)) as [Hle|Hlt].
  2:{ rewrite on_epoch_end_idle by lia. cbn. repeat split. }
  rewrite (on_epoch_end_attempt epoch logs s fs Hle). unfold save_attempt.
  destruct (format_filepath (filepath s) (epoch + 1) (default ∅ logs))
    as [path|e]; [| cbn; repeat split].
  destruct (save_best_only s) eqn:Hb.
  - destruct (default ∅ logs !! monitor s) as [current|];
      [| cbn; rewrite ?Hb; repeat split].
    destruct (improved (monitor_op s) current (best s));
      [| cbn; rewrite ?Hb; repeat split].
    pose proof (_save_model_self epoch path (set_best current (reset s)) fs) as Hs.
    destruct (_save_model epoch path (set_best current (reset s)) fs)
      as [[[r s1] fs1] evs].
    cbn in Hs. subst s1. cbn. rewrite ?Hb. repeat split.
  - pose proof (_save_model_self epoch path (reset s) fs) as Hs.
    destruct (_save_model epoch path (reset s) fs) as [[[r s1] fs1] evs].
    cbn in Hs. subst s1. cbn. rewrite ?Hb. repeat split.
Qed.

(** Call number [k + 1] of a run is [on_epoch_end] on the state the first
    [k] calls leave, which has the configuration of the start and the
    counter [k] steps further around the cycle. *)
Lemma run_call calls : forall s fs (k : nat),
  0 <= epochs_since_last_save s < period s ->
  (k < length calls)%nat ->
  exists epoch logs,
    calls !! k = Some (epoch, logs) /\
    run calls s fs !! k
      = Some (on_epoch_end epoch logs (state_after calls k s fs).1
                (state_after calls k s fs).2) /\
    same_config (state_after calls k s fs).1 s /\
    epochs_since_last_save (state_after calls k s fs).1
      = (epochs_since_last_save s + Z.of_nat k) mod period s.
Proof.
  induction calls as [|[epoch logs] calls IH]; intros s fs k Hc Hk;
    [simpl in Hk; lia |].
  destruct k as [|k].
  - exists epoch, logs. cbn [state_after fst snd]. split; [reflexivity |].
    split.
    + cbn [run]. destruct (on_epoch_end epoch logs s fs) as [[[r s1] fs1] evs].
      reflexivity.
    + split.
      * unfold same_config. repeat split.
      * rewrite Z.add_0_r. symmetry. apply Z.mod_small. exact Hc.
  - pose proof (on_epoch_end_cycle epoch logs s fs Hc) as Hstep.
    pose proof (on_epoch_end_counter epoch logs s fs) as Hcount.
    assert (Hcfg : forall s', same_config s' (self_after (on_epoch_end epoch logs s fs))
                              -> same_config s' s).
    { intros s' Hs'. pose proof (on_epoch_end_config epoch logs s fs) as Hs.
      unfold same_config in *. intuition congruence. }
    cbn [run state_after].
    destruct (on_epoch_end epoch logs s fs) as [[[r s1] fs1] evs].
    cbn [self_after fs_after fst snd] in *.
    destruct Hstep as (Hp & Hn & _).
    assert (Hc1 : 0 <= epochs_since_last_save s1 < period s1).
    { rewrite Hn, Hp. apply Z.mod_pos_bound. lia. }
    assert (Hk1 : (k < length calls)%nat) by (simpl in Hk; lia).
    destruct (IH s1 fs1 k Hc1 Hk1) as (e' & l' & Hcall & Hrun & Hsame & Hcnt).
    exists e', l'. split; [exact Hcall |]. split; [exact Hrun |].
    split; [now apply Hcfg |].
    rewrite Hcnt, Hp, Hn, Zplus_mod_idemp_l. f_equal. lia.
Qed.

(** C3. On an object whose period is at least 1 and whose counter starts
    at 0 (as the constructor leaves it), the [k]-th call of any run is a
    save attempt exactly when [k mod period = 0].  It works on the state
    the first [k - 1] calls have left, whose configuration is that of the
    start.  When [k mod period = 0] the call is the whole attempt: the
    counter is reset, the path is resolved and the evaluation runs
    ([save_attempt]: the save, the skip, or the comparison followed by
    the update of [best] and the save, with their messages and their
    exceptions).  Otherwise the call only sets the counter to
    [k mod period] and does nothing else.  After every call the counter
    is [k mod period], hence in [0, period). *)
Theorem save_attempts_follow_cadence calls s fs (k : nat) :
  1 <= period s ->
  epochs_since_last_save s = 0 ->
  (1 <= k <= length calls)%nat ->
  exists epoch logs r s1 fs1 evs,
    calls !! (k - 1)%nat = Some (epoch, logs) /\
    run calls s fs !! (k - 1)%nat = Some (r, s1, fs1, evs) /\
    epochs_since_last_save s1 = Z.of_nat k mod period s /\
    0 <= epochs_since_last_save s1 < period s /\
    (attempted evs = true <-> Z.of_nat k mod period s = 0) /\
    same_config (state_after calls (k - 1) s fs).1 s /\
    (Z.of_nat k mod period s = 0 ->
     (r, s1, fs1, evs)
       = save_attempt epoch logs (state_after calls (k - 1) s fs).1
           (state_after calls (k - 1) s fs).2) /\
    (Z.of_nat k mod period s <> 0 ->
     (r, s1, fs1, evs)
       = (Ok tt,
          set_epochs_since_last_save (Z.of_nat k mod period s)
            (state_after calls (k - 1) s fs).1,
          (state_after calls (k - 1) s fs).2, [])).
Proof.
  intros Hp H0 Hk.
  assert (Hc : 0 <= epochs_since_last_save s < period s) by lia.
  assert (Hk1 : (k - 1 < length calls)%nat) by lia.
  destruct (run_cycle calls s fs (k - 1) Hc Hk1)
    as (r & s1 & fs1 & evs & Hl & _ & Hn & Ha).
  destruct (run_call calls s fs (k - 1) Hc Hk1)
    as (epoch & logs & Hcall & Hrun & Hsame & Hcnt).
  replace (S (k - 1)) with k in Hn, Ha by lia.
  rewrite H0, Z.add_0_l in Hn, Ha, Hcnt.
  rewrite Hl in Hrun. injection Hrun as Hout.
  destruct Hsame as (Hfp & Hmon & Hverb & Hsbo & Hswo & Hper & Hop & Hmod).
  assert (Hsame : same_config (state_after calls (k - 1) s fs).1 s)
    by (unfold same_config; tauto).
  assert (Hkmod : Z.of_nat k mod period s
                  = (Z.of_nat (k - 1) mod period s + 1) mod period s).
  { rewrite Zplus_mod_idemp_l. f_equal. lia. }
  assert (Hrange : 0 <= Z.of_nat (k - 1) mod period s < period s)
    by (apply Z.mod_pos_bound; lia).
  exists epoch, logs, r, s1, fs1, evs.
  split; [exact Hcall |]. split; [exact Hl |]. split; [exact Hn |]. split.
  { rewrite Hn. apply Z.mod_pos_bound. lia. }
  split. { rewrite Ha. apply Z.eqb_eq. }
  split; [exact Hsame |]. split.
  - intros Hzero. rewrite Hout. apply on_epoch_end_attempt.
    rewrite Hper, Hcnt. rewrite Hkmod in Hzero.
    remember (Z.of_nat (k - 1) mod period s) as c eqn:Hc0. clear Hc0.
    destruct (Z.eq_dec (c + 1) (period s)) as [Heq|Hne]; [lia |].
    rewrite Z.mod_small in Hzero by lia. lia.
  - intros Hnz. rewrite Hout. rewrite Hkmod in Hnz |- *.
    remember (Z.of_nat (k - 1) mod period s) as c eqn:Hc0. clear Hc0.
    destruct (Z.eq_dec (c + 1) (period s)) as [Heq|Hne].
    + rewrite Heq, Z_mod_same_full in Hnz. contradiction.
    + rewrite on_epoch_end_idle by (rewrite Hper, Hcnt; lia).
      rewrite Hcnt, Z.mod_small by lia. reflexivity.
Qed.

End Run.

(** ** The best value over a run *)

Section BestValue.

Context {FS Model : Type} `{Platform FS Model}.

Implicit Types (s : ModelCheckpoint Model) (fs : FS) (epoch : Z)
  (logs : option (gmap string float)) (path : string).

(** On numbers, a metric that passes the test is the extremum of the old
    best value and itself. *)
Lemma update_is_extremum_on_numbers (op : monitor_fn) (current old : float) :
  is_nan current = false -> is_nan old = false ->
  improved op current old = true ->
  call_op op old current = current.
Proof.
  intros Hc Ho Hi. destruct op.
  - rewrite improved_min_number in Hi by assumption.
    unfold call_op, py_min. now rewrite Hi.
  - rewrite improved_max_number in Hi by assumption.
    unfold call_op, py_max, gt. unfold lt in Hi. now rewrite Hi.
Qed.

(** On numbers, a metric that fails the test leaves the old best value
    as the extremum. *)
Lemma no_update_is_extremum_on_numbers (op : monitor_fn) (current old : float) :
  is_nan current = false -> is_nan old = false ->
  improved op current old = false ->
  call_op op old current = old.
Proof.
  intros Hc Ho Hi. destruct op.
  - rewrite improved_min_number in Hi by assumption.
    unfold call_op, py_min. now rewrite Hi.
  - rewrite improved_max_number in Hi by assumption.
    unfold call_op, py_max, gt. unfold lt in Hi. now rewrite Hi.
Qed.

(** As long as neither the metric nor [best] is a NaN, a call that
    reaches the comparison leaves [best] at the extremum of its old value
    and the current metric. *)
Lemma best_is_extremum_on_numbers epoch logs s fs path current :
  period s <= epochs_since_last_save s + 1 ->
  format_filepath (filepath s) (epoch + 1) (default ∅ logs) = Ok path ->
  save_best_only s = true ->
  default ∅ logs !! monitor s = Some current ->
  is_nan current = false -> is_nan (best s) = false ->
  best (self_after (on_epoch_end epoch logs s fs)) = call_op (monitor_op s) (best s) current.
Proof.
  intros Hle Hf Hb Hm Hc Ho.
  destruct (improved (monitor_op s) current (best s)) eqn:Hi.
  - rewrite (on_epoch_end_improved epoch logs s fs path current Hle Hf Hb Hm Hi).
    pose proof (_save_model_self epoch path (set_best current (reset s)) fs) as Hs.
    destruct (_save_model epoch path (set_best current (reset s)) fs)
      as [[[r s1] fs1] evs].
    cbn in Hs |- *. subst s1. cbn.
    symmetry. now apply update_is_extremum_on_numbers.
  - rewrite (on_epoch_end_not_improved epoch logs s fs path current Hle Hf Hb Hm Hi).
    cbn. symmetry. now apply no_update_is_extremum_on_numbers.
Qed.

End BestValue.

(** The two cases of the testable property, minimizing: 0.5 against a
    best of 1.0 is saved and becomes the best; 1.5 against 1.0 is not
    saved and the best stays 1.0. *)
Example minimize_half_against_one :
  let out := on_epoch_end 0 (Demo.loss f0_5) (set_best f1_0 Demo.best_loss) Sim.empty_fs in
  outcome out = Ok tt /\ best (self_after out) = f0_5 /\ persisted (events out) = true.
Proof. vm_compute. repeat split. Qed.

Example minimize_one_and_half_against_one :
  let out := on_epoch_end 0 (Demo.loss f1_5) (set_best f1_0 Demo.best_loss) Sim.empty_fs in
  outcome out = Ok tt /\ best (self_after out) = f1_0 /\ persisted (events out) = false.
Proof. vm_compute. repeat split. Qed.

Example maximize_nine_tenths_against_eight_tenths :
  let out := on_epoch_end 0 (Demo.acc f0_9) (set_best f0_8 Demo.best_acc) Sim.empty_fs in
  outcome out = Ok tt /\ best (self_after out) = f0_9 /\ persisted (events out) = true.
Proof. vm_compute. repeat split. Qed.

(** A metric called [epoch] clashes with the keyword of the same name:
    the call raises [TypeError] once the cadence is reached. *)
Example epoch_key_clashes :
  outcome (on_epoch_end 0 (Some {[ "epoch" := f1_0 ]}) Demo.every_second_best
             Sim.empty_fs) = Ok tt
  /\ outcome (on_epoch_end 0 (Some {[ "epoch" := f1_0 ]}) Demo.best_file
                Sim.empty_fs)
       = Raise (TypeError "str.format() got multiple values for keyword argument 'epoch'").
Proof. vm_compute. split; reflexivity. Qed.

(** With a period of 3 the third call of a run is the first to save. *)
Example third_call_saves :
  map (fun o => (outcome o, tail (events o)))
      (run Demo.six_epochs Demo.every_third Sim.empty_fs)
  = [(Ok tt, []); (Ok tt, []);
     (Ok tt, [EvExists "ckpt"; EvMakedirs "ckpt";
              EvTorchSave (FullModel 7%nat) "ckpt/model_3.pt"]);
     (Ok tt, []); (Ok tt, []);
     (Ok tt, [EvExists "ckpt"; EvTorchSave (FullModel 7%nat) "ckpt/model_6.pt"])].
Proof. vm_compute. reflexivity. Qed.

(** The literals are binary64 numbers. *)
Example literals_are_binary64 :
  forallb is_binary64 [f0_5; f0_8; f0_9; f1_0; f1_5; inf; neg_inf; nan] = true.
Proof. reflexivity. Qed.

(** C7. A NaN metric breaks the invariant.  With [mode='min'] and a best
    value of 0.5, a call that reports a NaN loss passes the test
    ([min(nan, 0.5)] is [nan], which is unequal to 0.5): the call prints
    that the loss improved from 0.5 to NaN, [best] becomes NaN and the
    file of the best model is written again, although [min(0.5, nan)],
    the extremum of the old best and the current value, is 0.5.  From
    then on every value passes the test: in the run 0.5, NaN, 0.9 all
    three epochs are saved and [best] ends at 0.9, worse than the 0.5 of
    the first epoch. *)
Theorem nan_metric_replaces_best :
  let s := set_best f0_5 Demo.best_file in
  let out := on_epoch_end 1 (Demo.loss nan) s Sim.empty_fs in
  outcome out = Ok tt
  /\ tail (events out) =
       [EvPrint (MsgImproved 2 "val_loss" f0_5 nan "ckpt/best.pt");
        EvExists "ckpt"; EvMakedirs "ckpt";
        EvTorchSave (FullModel 7%nat) "ckpt/best.pt"]
  /\ best (self_after out) = nan
  /\ call_op (monitor_op s) (best s) nan = f0_5
  /\ ne (best (self_after out)) (call_op (monitor_op s) (best s) nan) = true
  /\ map (fun o => best (self_after o)) (run Demo.nan_run Demo.best_file Sim.empty_fs)
       = [f0_5; nan; f0_9]
  /\ map (fun o => persisted (events o)) (run Demo.nan_run Demo.best_file Sim.empty_fs)
       = [true; true; true]
  /\ lt f0_5 f0_9 = true.
Proof. vm_compute. repeat split. Qed.

(** ** Where the code departs from the specification *)

(** C1 (as stated) fails: maximizing with a best value of 0.9, a call
    that reports 0.9 again returns normally without saving anything. *)
Lemma tie_counterexample :
  let s := set_best f0_9 Demo.best_acc in
  let out := on_epoch_end 3 (Demo.acc f0_9) s Sim.empty_fs in
  save_best_only s = true
  /\ default ∅ (Demo.acc f0_9) !! monitor s = Some f0_9
  /\ eq f0_9 (best s) = true
  /\ outcome out = Ok tt
  /\ persisted (events out) = false
  /\ fs_after out = Sim.empty_fs.
Proof. vm_compute. repeat split. Qed.

(** C2 (as stated) fails: the template names [val_acc], the driver
    reports only [val_loss = 0.5]; the call raises [KeyError] and [best]
    is still the initial plus infinity, not 0.5. *)
Lemma unresolved_path_counterexample :
  let s := Demo.names_val_acc in
  let out := on_epoch_end 0 (Demo.loss f0_5) s Sim.empty_fs in
  default ∅ (Demo.loss f0_5) !! monitor s = Some f0_5
  /\ outcome out = Raise (KeyError "val_acc")
  /\ best (self_after out) = inf
  /\ best (self_after out) <> f0_5.
Proof. vm_compute. repeat split. discriminate. Qed.

(** C4 (as stated) fails twice.  When the template names the monitored
    metric and the metric is missing, the call raises [KeyError]; and
    when the cadence is not reached the counter is 1 after the call, not
    0. *)
Lemma missing_metric_counterexample :
  (save_best_only Demo.names_val_loss = true
   /\ default ∅ Demo.no_logs !! monitor Demo.names_val_loss = None
   /\ outcome (on_epoch_end 0 Demo.no_logs Demo.names_val_loss Sim.empty_fs)
        = Raise (KeyError "val_loss"))
  /\
  (save_best_only Demo.every_second_best = true
   /\ default ∅ Demo.no_logs !! monitor Demo.every_second_best = None
   /\ outcome (on_epoch_end 0 Demo.no_logs Demo.every_second_best Sim.empty_fs) = Ok tt
   /\ epochs_since_last_save
        (self_after (on_epoch_end 0 Demo.no_logs Demo.every_second_best Sim.empty_fs)) = 1).
Proof. vm_compute. repeat split. Qed.

(** ** The theorems at concrete calls *)

Lemma below_cadence_only_counts_witness :
  epochs_since_last_save Demo.every_third + 1 < period Demo.every_third
  /\ on_epoch_end 0 (Demo.loss f1_5) Demo.every_third Sim.empty_fs =
       (Ok tt,
        set_epochs_since_last_save
          (epochs_since_last_save Demo.every_third + 1) Demo.every_third,
        Sim.empty_fs, [])
  /\ best (self_after (on_epoch_end 0 (Demo.loss f1_5) Demo.every_third Sim.empty_fs))
       = best Demo.every_third
  /\ attempted (events (on_epoch_end 0 (Demo.loss f1_5) Demo.every_third Sim.empty_fs))
       = false.
Proof.
  assert (Hlt : epochs_since_last_save Demo.every_third + 1 < period Demo.every_third)
    by (vm_compute; reflexivity).
  split; [exact Hlt |].
  exact (below_cadence_only_counts 0 (Demo.loss f1_5) Demo.every_third
           Sim.empty_fs Hlt).
Defined.

Lemma unresolved_path_precedes_comparison_witness :
  period Demo.names_val_acc <= epochs_since_last_save Demo.names_val_acc + 1
  /\ format_filepath (filepath Demo.names_val_acc) (0 + 1)
       (default ∅ (Demo.loss f0_5)) = Raise (KeyError "val_acc")
  /\ on_epoch_end 0 (Demo.loss f0_5) Demo.names_val_acc Sim.empty_fs =
       (Raise (KeyError "val_acc"), reset Demo.names_val_acc, Sim.empty_fs,
        [EvFormat (filepath Demo.names_val_acc) (0 + 1)
           (default ∅ (Demo.loss f0_5))])
  /\ best (reset Demo.names_val_acc) = best Demo.names_val_acc
  /\ epochs_since_last_save (reset Demo.names_val_acc) = 0.
Proof.
  assert (Hle : period Demo.names_val_acc
                <= epochs_since_last_save Demo.names_val_acc + 1)
    by (vm_compute; discriminate).
  assert (Hf : format_filepath (filepath Demo.names_val_acc) (0 + 1)
                 (default ∅ (Demo.loss f0_5)) = Raise (KeyError "val_acc"))
    by (vm_compute; reflexivity).
  split; [exact Hle |]. split; [exact Hf |].
  exact (unresolved_path_precedes_comparison 0 (Demo.loss f0_5)
           Demo.names_val_acc Sim.empty_fs (KeyError "val_acc") Hle Hf).
Defined.

Lemma missing_metric_skips_witness :
  period Demo.best_loss <= epochs_since_last_save Demo.best_loss + 1
  /\ format_filepath (filepath Demo.best_loss) (4 + 1)
       (default ∅ (Demo.acc f0_9)) = Ok "ckpt/model_5.pt"
  /\ save_best_only Demo.best_loss = true
  /\ default ∅ (Demo.acc f0_9) !! monitor Demo.best_loss = None
  /\ on_epoch_end 4 (Demo.acc f0_9) Demo.best_loss Sim.empty_fs =
       (Ok tt, reset Demo.best_loss, Sim.empty_fs,
        EvFormat (filepath Demo.best_loss) (4 + 1) (default ∅ (Demo.acc f0_9))
          :: printed Demo.best_loss (MsgSkipping (monitor Demo.best_loss)))
  /\ persisted (events (on_epoch_end 4 (Demo.acc f0_9) Demo.best_loss Sim.empty_fs)) = false
  /\ best (reset Demo.best_loss) = best Demo.best_loss
  /\ epochs_since_last_save (reset Demo.best_loss) = 0.
Proof.
  assert (Hle : period Demo.best_loss <= epochs_since_last_save Demo.best_loss + 1)
    by (vm_compute; discriminate).
  assert (Hf : format_filepath (filepath Demo.best_loss) (4 + 1)
                 (default ∅ (Demo.acc f0_9)) = Ok "ckpt/model_5.pt")
    by (vm_compute; reflexivity).
  assert (Hb : save_best_only Demo.best_loss = true) by reflexivity.
  assert (Hm : default ∅ (Demo.acc f0_9) !! monitor Demo.best_loss = None)
    by (vm_compute; reflexivity).
  split; [exact Hle |]. split; [exact Hf |]. split; [exact Hb |].
  split; [exact Hm |].
  exact (missing_metric_skips 4 (Demo.acc f0_9) Demo.best_loss Sim.empty_fs
           "ckpt/model_5.pt" Hle Hf Hb Hm).
Defined.

Lemma tie_is_not_saved_witness :
  period Demo.best_loss <= epochs_since_last_save Demo.best_loss + 1
  /\ format_filepath (filepath (set_best f1_0 Demo.best_loss)) (1 + 1)
       (default ∅ (Demo.loss f1_0)) = Ok "ckpt/model_2.pt"
  /\ default ∅ (Demo.loss f1_0) !! monitor (set_best f1_0 Demo.best_loss) = Some f1_0
  /\ eq f1_0 (best (set_best f1_0 Demo.best_loss)) = true
  /\ persisted
       (events (on_epoch_end 1 (Demo.loss f1_0) (set_best f1_0 Demo.best_loss) Sim.empty_fs))
     = false.
Proof.
  assert (Hle : period (set_best f1_0 Demo.best_loss)
                <= epochs_since_last_save (set_best f1_0 Demo.best_loss) + 1)
    by (vm_compute; discriminate).
  assert (Hf : format_filepath (filepath (set_best f1_0 Demo.best_loss)) (1 + 1)
                 (default ∅ (Demo.loss f1_0)) = Ok "ckpt/model_2.pt")
    by (vm_compute; reflexivity).
  assert (Hb : save_best_only (set_best f1_0 Demo.best_loss) = true) by reflexivity.
  assert (Hm : default ∅ (Demo.loss f1_0) !! monitor (set_best f1_0 Demo.best_loss)
               = Some f1_0) by (vm_compute; reflexivity).
  assert (Heq : eq f1_0 (best (set_best f1_0 Demo.best_loss)) = true) by reflexivity.
  split; [exact Hle |]. split; [exact Hf |]. split; [exact Hm |].
  split; [exact Heq |].
  exact (proj1 (proj2 (tie_is_not_saved 1 (Demo.loss f1_0)
           (set_best f1_0 Demo.best_loss) Sim.empty_fs "ckpt/model_2.pt" f1_0
           Hle Hf Hb Hm Heq))).
Defined.

Lemma failed_save_keeps_updates_witness :
  period Demo.bare_best <= epochs_since_last_save Demo.bare_best + 1
  /\ format_filepath (filepath Demo.bare_best) (0 + 1)
       (default ∅ (Demo.loss f0_5)) = Ok "model.pt"
  /\ improved (monitor_op Demo.bare_best) f0_5 (best Demo.bare_best) = true
  /\ outcome (_save_model 0 "model.pt" (set_best f0_5 (reset Demo.bare_best)) Sim.empty_fs)
       = Raise (OSError ENOENT "")
  /\ outcome (on_epoch_end 0 (Demo.loss f0_5) Demo.bare_best Sim.empty_fs)
       = Raise (OSError ENOENT "")
  /\ self_after (on_epoch_end 0 (Demo.loss f0_5) Demo.bare_best Sim.empty_fs)
       = set_best f0_5 (reset Demo.bare_best)
  /\ epochs_since_last_save (set_best f0_5 (reset Demo.bare_best)) = 0.
Proof.
  assert (Hle : period Demo.bare_best <= epochs_since_last_save Demo.bare_best + 1)
    by (vm_compute; discriminate).
  assert (Hf : format_filepath (filepath Demo.bare_best) (0 + 1)
                 (default ∅ (Demo.loss f0_5)) = Ok "model.pt")
    by (vm_compute; reflexivity).
  assert (Hi : improved (monitor_op Demo.bare_best) f0_5 (best Demo.bare_best) = true)
    by reflexivity.
  assert (Hcase :
    (save_best_only Demo.bare_best = false
     /\ set_best f0_5 (reset Demo.bare_best) = reset Demo.bare_best) \/
    (save_best_only Demo.bare_best = true /\
     exists current,
       default ∅ (Demo.loss f0_5) !! monitor Demo.bare_best = Some current /\
       improved (monitor_op Demo.bare_best) current (best Demo.bare_best) = true /\
       set_best f0_5 (reset Demo.bare_best) = set_best current (reset Demo.bare_best))).
  { right. split; [reflexivity |]. exists f0_5.
    split; [vm_compute; reflexivity |]. split; [exact Hi | reflexivity]. }
  assert (Hraise :
    outcome (_save_model 0 "model.pt" (set_best f0_5 (reset Demo.bare_best)) Sim.empty_fs)
      = Raise (OSError ENOENT "")) by (vm_compute; reflexivity).
  pose proof (failed_save_keeps_updates 0 (Demo.loss f0_5) Demo.bare_best
                Sim.empty_fs "model.pt" (OSError ENOENT "")
                (set_best f0_5 (reset Demo.bare_best)) Hle Hf Hcase Hraise)
    as (Hr & Hs & Hc & _).
  split; [exact Hle |]. split; [exact Hf |]. split; [exact Hi |].
  split; [exact Hraise |]. split; [exact Hr |]. split; [exact Hs | exact Hc].
Defined.

Lemma bare_filename_never_saved_witness :
  os_path_dirname "model.pt" = EmptyString
  /\ _save_model 0 "model.pt" Demo.bare_best Sim.empty_fs =
       (Raise (OSError ENOENT ""), Demo.bare_best, Sim.empty_fs,
        [EvExists ""; EvMakedirs ""])
  /\ persisted (events (_save_model 0 "model.pt" Demo.bare_best Sim.empty_fs)) = false.
Proof.
  assert (Hd : os_path_dirname "model.pt" = EmptyString) by reflexivity.
  split; [exact Hd |].
  exact (bare_filename_never_saved 0 "model.pt" Demo.bare_best Sim.empty_fs Hd).
Defined.

Lemma save_attempts_follow_cadence_witness :
  1 <= period Demo.every_third
  /\ epochs_since_last_save Demo.every_third = 0
  /\ (1 <= 3 <= length Demo.six_epochs)%nat
  /\ exists epoch logs r s1 fs1 evs,
       Demo.six_epochs !! (3 - 1)%nat = Some (epoch, logs) /\
       run Demo.six_epochs Demo.every_third Sim.empty_fs !! (3 - 1)%nat
         = Some (r, s1, fs1, evs) /\
       epochs_since_last_save s1 = Z.of_nat 3 mod period Demo.every_third /\
       0 <= epochs_since_last_save s1 < period Demo.every_third /\
       (attempted evs = true <-> Z.of_nat 3 mod period Demo.every_third = 0) /\
       same_config
         (state_after Demo.six_epochs (3 - 1) Demo.every_third Sim.empty_fs).1
         Demo.every_third /\
       (Z.of_nat 3 mod period Demo.every_third = 0 ->
        (r, s1, fs1, evs)
          = save_attempt epoch logs
              (state_after Demo.six_epochs (3 - 1) Demo.every_third Sim.empty_fs).1
              (state_after Demo.six_epochs (3 - 1) Demo.every_third Sim.empty_fs).2) /\
       (Z.of_nat 3 mod period Demo.every_third <> 0 ->
        (r, s1, fs1, evs)
          = (Ok tt,
             set_epochs_since_last_save (Z.of_nat 3 mod period Demo.every_third)
               (state_after Demo.six_epochs (3 - 1) Demo.every_third Sim.empty_fs).1,
             (state_after Demo.six_epochs (3 - 1) Demo.every_third Sim.empty_fs).2,
             [])).
Proof.
  assert (Hp : 1 <= period Demo.every_third) by (vm_compute; discriminate).
  assert (H0 : epochs_since_last_save Demo.every_third = 0) by reflexivity.
  assert (Hk : (1 <= 3 <= length Demo.six_epochs)%nat) by (cbn; lia).
  split; [exact Hp |]. split; [exact H0 |]. split; [exact Hk |].
  exact (save_attempts_follow_cadence Demo.six_epochs Demo.every_third
           Sim.empty_fs 3 Hp H0 Hk).
Defined.

(** * Further properties of the callback *)

(** ** Case analysis of the two methods *)

Section Elimination.

Context {FS Model : Type} `{Platform FS Model}.

Implicit Types (s : ModelCheckpoint Model) (fs : FS) (epoch : Z)
  (logs : option (gmap string float)) (path : string).

(** The five ways [_save_model] can end. *)
Lemma _save_model_elim epoch path s fs
    (P : result unit * ModelCheckpoint Model * FS * list (event Model) -> Prop) :
  let d := os_path_dirname path in
  (os_path_exists d fs = true -> model s = None ->
   P (Raise (AttributeError "model"), s, fs, [EvExists d])) ->
  (forall m r fs1,
   os_path_exists d fs = true -> model s = Some m ->
   torch_save (payload_of s m) path fs = (r, fs1) ->
   P (r, s, fs1, [EvExists d; EvTorchSave (payload_of s m) path])) ->
  (forall e fs1,
   os_path_exists d fs = false -> os_makedirs d fs = (Raise e, fs1) ->
   P (Raise e, s, fs1, [EvExists d; EvMakedirs d])) ->
  (forall u fs1,
   os_path_exists d fs = false -> os_makedirs d fs = (Ok u, fs1) ->
   model s = None ->
   P (Raise (AttributeError "model"), s, fs1, [EvExists d; EvMakedirs d])) ->
  (forall u m r fs1 fs2,
   os_path_exists d fs = false -> os_makedirs d fs = (Ok u, fs1) ->
   model s = Some m ->
   torch_save (payload_of s m) path fs1 = (r, fs2) ->
   P (r, s, fs2, [EvExists d; EvMakedirs d; EvTorchSave (payload_of s m) path])) ->
  P (_save_model epoch path s fs).
Proof.
  intros d H1 H2 H3 H4 H5. subst d. unfold payload_of in *. unfold_save.
  destruct (os_path_exists (os_path_dirname path) fs); cbn [negb].
  - destruct (save_weights_only s);
      (destruct (model s) as [m|]; [| exact (H1 eq_refl eq_refl)]);
      match goal with |- context [torch_save ?p ?q ?f] =>
        destruct (torch_save p q f) as [r fs1] eqn:Ht end;
      specialize (H2 m r fs1 eq_refl eq_refl Ht); destruct r; exact H2.
  - destruct (os_makedirs (os_path_dirname path) fs) as [[u|e] fs1];
      [| exact (H3 e fs1 eq_refl eq_refl)].
    destruct (save_weights_only s);
      (destruct (model s) as [m|]; [| exact (H4 u fs1 eq_refl eq_refl eq_refl)]);
      match goal with |- context [torch_save ?p ?q ?f] =>
        destruct (torch_save p q f) as [r fs2] eqn:Ht end;
      specialize (H5 u m r fs1 fs2 eq_refl eq_refl eq_refl Ht);
      destruct r; exact H5.
Qed.

(** The six ways [on_epoch_end] can end. *)
Lemma on_epoch_end_elim epoch logs s fs
    (P : result unit * ModelCheckpoint Model * FS * list (event Model) -> Prop) :
  let ev := EvFormat (filepath s) (epoch + 1) (default ∅ logs) in
  (epochs_since_last_save s + 1 < period s ->
   P (Ok tt, set_epochs_since_last_save (epochs_since_last_save s + 1) s, fs, [])) ->
  (forall e,
   period s <= epochs_since_last_save s + 1 ->
   format_filepath (filepath s) (epoch + 1) (default ∅ logs) = Raise e ->
   P (Raise e, reset s, fs, [ev])) ->
  (forall path r fs1 evs,
   period s <= epochs_since_last_save s + 1 ->
   format_filepath (filepath s) (epoch + 1) (default ∅ logs) = Ok path ->
   save_best_only s = false ->
   _save_model epoch path (reset s) fs = (r, reset s, fs1, evs) ->
   P (r, reset s, fs1, ev :: printed s (MsgSaving (epoch + 1) path) ++ evs)) ->
  (forall path,
   period s <= epochs_since_last_save s + 1 ->
   format_filepath (filepath s) (epoch + 1) (default ∅ logs) = Ok path ->
   save_best_only s = true ->
   default ∅ logs !! monitor s = None ->
   P (Ok tt, reset s, fs, ev :: printed s (MsgSkipping (monitor s)))) ->
  (forall path current,
   period s <= epochs_since_last_save s + 1 ->
   format_filepath (filepath s) (epoch + 1) (default ∅ logs) = Ok path ->
   save_best_only s = true ->
   default ∅ logs !! monitor s = Some current ->
   improved (monitor_op s) current (best s) = false ->
   P (Ok tt, reset s, fs,
      ev :: printed s (MsgNotImproved (epoch + 1) (monitor s) (best s)))) ->
  (forall path current r fs1 evs,
   period s <= epochs_since_last_save s + 1 ->
   format_filepath (filepath s) (epoch + 1) (default ∅ logs) = Ok path ->
   save_best_only s = true ->
   default ∅ logs !! monitor s = Some current ->
   improved (monitor_op s) current (best s) = true ->
   _save_model epoch path (set_best current (reset s)) fs
     = (r, set_best current (reset s), fs1, evs) ->
   P (r, set_best current (reset s), fs1,
      ev :: printed s (MsgImproved (epoch + 1) (monitor s) (best s) current path)
         ++ evs)) ->
  P (on_epoch_end epoch logs s fs).
Proof.
  intros ev Hidle Hunres Halways Hmiss Hnot Himp. subst ev.
  destruct (Z.leb_spec (period s) (epochs_since_last_save s + 1)) as [Hle|Hlt].
  2:{ rewrite on_epoch_end_idle by lia. now apply Hidle. }
  destruct (format_filepath (filepath s) (epoch + 1) (default ∅ logs))
    as [path|e] eqn:Hf.
  2:{ rewrite (on_epoch_end_unresolved _ _ _ _ e) by assumption. now apply Hunres. }
  destruct (save_best_only s) eqn:Hb.
  - destruct (default ∅ logs !! monitor s) as [current|] eqn:Hm.
    + destruct (improved (monitor_op s) current (best s)) eqn:Hi.
      * rewrite (on_epoch_end_improved _ _ _ _ path current) by assumption.
        pose proof (_save_model_self epoch path (set_best current (reset s)) fs) as Hs.
        destruct (_save_model epoch path (set_best current (reset s)) fs)
          as [[[r s1] fs1] evs] eqn:Hsave.
        cbn in Hs. subst s1. now apply Himp.
      * rewrite (on_epoch_end_not_improved _ _ _ _ path current) by assumption.
        now apply (Hnot path current).
    + rewrite (on_epoch_end_missing _ _ _ _ path) by assumption.
      now apply (Hmiss path).
  - rewrite (on_epoch_end_always _ _ _ _ path) by assumption.
    pose proof (_save_model_self epoch path (reset s) fs) as Hs.
    destruct (_save_model epoch path (reset s) fs) as [[[r s1] fs1] evs] eqn:Hsave.
    cbn in Hs. subst s1. now apply Halways.
Qed.

End Elimination.

(** ** What [_save_model] does *)

Section SaveModelFacts.

Context {FS Model : Type} `{Platform FS Model}.

Implicit Types (s : ModelCheckpoint Model) (fs : FS) (epoch : Z)
  (logs : option (gmap string float)) (path : string).

Lemma _save_model_reached epoch path s fs :
  reached_save (events (_save_model epoch path s fs)) = true.
Proof. apply _save_model_elim; intros; reflexivity. Qed.

Lemma _save_model_prints epoch path s fs :
  prints (events (_save_model epoch path s fs)) = 0%nat.
Proof. apply _save_model_elim; intros; reflexivity. Qed.

Lemma _save_model_saves epoch path s fs :
  (saves (events (_save_model epoch path s fs)) <= 1)%nat.
Proof. apply _save_model_elim; intros; cbn; lia. Qed.

Lemma _save_model_torch_save epoch path s fs p path' :
  In (EvTorchSave p path') (events (_save_model epoch path s fs)) ->
  path' = path /\ exists m, model s = Some m /\ p = payload_of s m.
Proof.
  apply _save_model_elim; cbn; intros;
    repeat match goal with
           | Hin : _ \/ _ |- _ => destruct Hin
           | Hin : False |- _ => destruct Hin
           | Heq : _ = EvTorchSave _ _ |- _ => inversion Heq; subst; clear Heq
           end;
    eauto.
Qed.

Lemma _save_model_makedirs epoch path s fs d :
  In (EvMakedirs d) (events (_save_model epoch path s fs)) ->
  d = os_path_dirname path /\ os_path_exists d fs = false.
Proof.
  apply _save_model_elim; cbn; intros;
    repeat match goal with
           | Hin : _ \/ _ |- _ => destruct Hin
           | Hin : False |- _ => destruct Hin
           | Heq : _ = EvMakedirs _ |- _ => inversion Heq; subst; clear Heq
           end;
    eauto.
Qed.

(** A successful [_save_model] went through [torch.save]. *)
Lemma _save_model_ok epoch path s fs :
  outcome (_save_model epoch path s fs) = Ok tt ->
  saves (events (_save_model epoch path s fs)) = 1%nat.
Proof. apply _save_model_elim; cbn; intros; congruence. Qed.

End SaveModelFacts.

(** ** What one call may and may not do *)

Ltac save_facts Hsave :=
  match type of Hsave with
  | _save_model ?e ?p ?s ?f = _ =>
      pose proof (_save_model_reached e p s f) as Hreached;
      pose proof (_save_model_prints e p s f) as Hprints;
      pose proof (_save_model_saves e p s f) as Hsaves;
      rewrite Hsave in Hreached, Hprints, Hsaves;
      cbn [events snd] in Hreached, Hprints, Hsaves
  end.

Ltac break_printed :=
  unfold printed; destruct (0 <? verbose _) eqn:Hverbose.

Section CallFrame.

Context {FS Model : Type} `{Platform FS Model}.

Implicit Types (s : ModelCheckpoint Model) (fs : FS) (epoch : Z)
  (logs : option (gmap string float)) (path : string).

Lemma same_config_refl s : same_config s s.
Proof. unfold same_config. repeat split. Qed.

Lemma same_config_trans s1 s2 s3 :
  same_config s1 s2 -> same_config s2 s3 -> same_config s1 s3.
Proof. unfold same_config. intuition congruence. Qed.

Lemma on_epoch_end_same_config epoch logs s fs :
  same_config (self_after (on_epoch_end epoch logs s fs)) s.
Proof. apply on_epoch_end_elim; intros; unfold same_config; cbn; repeat split. Qed.

(** X1. Over a whole run the callback assigns only the counter and [best]:
    the template, the monitored name, the verbosity, both flags, the
    period, the direction and the attached model are those of the start,
    after every call, raising or not. *)
Theorem run_keeps_configuration
    (calls : list (Z * option (gmap string float))) s fs :
  Forall (fun o => same_config (self_after o) s) (run calls s fs).
Proof.
  revert s fs. induction calls as [|[epoch logs] calls IH]; intros s fs; cbn [run].
  - constructor.
  - pose proof (on_epoch_end_same_config epoch logs s fs) as Hc.
    destruct (on_epoch_end epoch logs s fs) as [[[r s1] fs1] evs].
    cbn in Hc. constructor; [exact Hc |].
    eapply List.Forall_impl; [| apply (IH s1 fs1)].
    intros o Ho. cbn beta in Ho. eapply same_config_trans; eassumption.
Qed.

(** X2. A call that does not enter [_save_model] leaves the file system as
    it found it and calls [torch.save] not at all. *)
Theorem file_system_untouched_outside_save epoch logs s fs :
  reached_save (events (on_epoch_end epoch logs s fs)) = false ->
  fs_after (on_epoch_end epoch logs s fs) = fs
  /\ saves (events (on_epoch_end epoch logs s fs)) = 0%nat.
Proof.
  apply on_epoch_end_elim; cbv zeta.
  - intros _ _. split; reflexivity.
  - intros e _ _ _. split; reflexivity.
  - intros path r fs1 evs _ _ _ Hsave. save_facts Hsave.
    unfold reached_save in *.
    break_printed; cbn; rewrite Hreached; discriminate.
  - intros path _ _ _ _ _. break_printed; split; reflexivity.
  - intros path current _ _ _ _ _ _. break_printed; split; reflexivity.
  - intros path current r fs1 evs _ _ _ _ _ Hsave. save_facts Hsave.
    unfold reached_save in *.
    break_printed; cbn; rewrite Hreached; discriminate.
Qed.

(** X3. A call hands at most one payload to [torch.save], and when it does,
    the destination is the template resolved with [epoch + 1] and the
    metrics of this call, and the payload is the state dict of the
    attached model when [save_weights_only] is set and the model itself
    otherwise. *)
Theorem saves_once_to_resolved_path epoch logs s fs :
  (saves (events (on_epoch_end epoch logs s fs)) <= 1)%nat
  /\ forall p path,
       In (EvTorchSave p path) (events (on_epoch_end epoch logs s fs)) ->
       format_filepath (filepath s) (epoch + 1) (default ∅ logs) = Ok path
       /\ exists m, model s = Some m /\ p = payload_of s m.
Proof.
  apply on_epoch_end_elim; cbv zeta.
  - intros _. split; [cbn; lia | intros p path []].
  - intros e _ _. split; [cbn; lia |].
    intros p path [Heq | []]. discriminate.
  - intros path r fs1 evs _ Hf _ Hsave. save_facts Hsave. split.
    + break_printed; cbn; exact Hsaves.
    + intros p path' Hin.
      assert (Hin' : In (EvTorchSave p path')
                       (events (_save_model epoch path (reset s) fs))).
      { rewrite Hsave. cbn. revert Hin. break_printed; cbn; intuition discriminate. }
      apply _save_model_torch_save in Hin'. destruct Hin' as (-> & m & Hm & ->).
      split; [exact Hf |]. exists m. split; [exact Hm | reflexivity].
  - intros path _ _ _ _. split.
    + break_printed; cbn; lia.
    + intros p path'. break_printed; cbn; intuition discriminate.
  - intros path current _ _ _ _ _. split.
    + break_printed; cbn; lia.
    + intros p path'. break_printed; cbn; intuition discriminate.
  - intros path current r fs1 evs _ Hf _ _ _ Hsave. save_facts Hsave. split.
    + break_printed; cbn; exact Hsaves.
    + intros p path' Hin.
      assert (Hin' : In (EvTorchSave p path')
                       (events (_save_model epoch path (set_best current (reset s)) fs))).
      { rewrite Hsave. cbn. revert Hin. break_printed; cbn; intuition discriminate. }
      apply _save_model_torch_save in Hin'. destruct Hin' as (-> & m & Hm & ->).
      split; [exact Hf |]. exists m. split; [exact Hm | reflexivity].
Qed.

(** X4. [os.makedirs] is only ever called on the directory part of the
    resolved path, and only when [os.path.exists] said it was missing
    from the file system the call started with. *)
Theorem makedirs_only_when_missing epoch logs s fs d :
  In (EvMakedirs d) (events (on_epoch_end epoch logs s fs)) ->
  os_path_exists d fs = false
  /\ exists path,
       format_filepath (filepath s) (epoch + 1) (default ∅ logs) = Ok path
       /\ d = os_path_dirname path.
Proof.
  apply on_epoch_end_elim; cbv zeta.
  - intros _ [].
  - intros e _ _ [Heq | []]. discriminate.
  - intros path r fs1 evs _ Hf _ Hsave Hin.
    assert (Hin' : In (EvMakedirs d) (events (_save_model epoch path (reset s) fs))).
    { rewrite Hsave. cbn. revert Hin. break_printed; cbn; intuition discriminate. }
    apply _save_model_makedirs in Hin'. destruct Hin' as [-> Hex].
    split; [exact Hex |]. now exists path.
  - intros path _ _ _ _. break_printed; cbn; intuition discriminate.
  - intros path current _ _ _ _ _. break_printed; cbn; intuition discriminate.
  - intros path current r fs1 evs _ Hf _ _ _ Hsave Hin.
    assert (Hin' : In (EvMakedirs d)
                     (events (_save_model epoch path (set_best current (reset s)) fs))).
    { rewrite Hsave. cbn. revert Hin. break_printed; cbn; intuition discriminate. }
    apply _save_model_makedirs in Hin'. destruct Hin' as [-> Hex].
    split; [exact Hex |]. now exists path.
Qed.

(** X5. With [verbose] at 0 or below, no call prints anything, whatever it
    does and however it ends. *)
Theorem quiet_when_not_verbose epoch logs s fs :
  verbose s <= 0 ->
  prints (events (on_epoch_end epoch logs s fs)) = 0%nat.
Proof.
  intros Hv.
  assert (Hq : (0 <? verbose s) = false) by (apply Z.ltb_ge; exact Hv).
  apply on_epoch_end_elim; cbv zeta; intros; unfold printed; try rewrite Hq;
    try reflexivity;
    match goal with Hsave : _save_model _ _ _ _ = _ |- _ => save_facts Hsave end;
    cbn; exact Hprints.
Qed.

(** X6. With [verbose] above 0, a call that reaches the cadence and resolves
    its path prints exactly one line, in every branch. *)
Theorem one_line_per_resolved_attempt epoch logs s fs path :
  0 < verbose s ->
  period s <= epochs_since_last_save s + 1 ->
  format_filepath (filepath s) (epoch + 1) (default ∅ logs) = Ok path ->
  prints (events (on_epoch_end epoch logs s fs)) = 1%nat.
Proof.
  intros Hv Hle Hf.
  assert (Hq : (0 <? verbose s) = true) by (apply Z.ltb_lt; exact Hv).
  apply on_epoch_end_elim; cbv zeta; intros; unfold printed; try rewrite Hq;
    try lia; try congruence; try reflexivity;
    match goal with Hsave : _save_model _ _ _ _ = _ |- _ => save_facts Hsave end;
    unfold prints in *; cbn; now rewrite Hprints.
Qed.

End CallFrame.

(** ** The order on floats is transitive *)

Section FloatOrder.

Lemma SFcompare_finite_lt (s : bool) (m1 m2 : positive) (e1 e2 : Z) :
  SFcompare (S754_finite s m1 e1) (S754_finite s m2 e2) = Some Lt <->
  (if s then e2 < e1 \/ (e1 = e2 /\ (m2 < m1)%positive)
   else e1 < e2 \/ (e1 = e2 /\ (m1 < m2)%positive)).
Proof.
  cbn [SFcompare]. change (Pos.compare_cont Eq m1 m2) with (Pos.compare m1 m2).
  destruct s; destruct (Z.compare_spec e1 e2) as [He|He|He];
    try (destruct (Pos.compare_spec m1 m2) as [Hm|Hm|Hm]); cbn;
    split; intros Hlt; try discriminate; try reflexivity; try lia.
Qed.

Lemma lt_finite (s : bool) (m1 m2 : positive) (e1 e2 : Z) :
  lt (S754_finite s m1 e1) (S754_finite s m2 e2) = true <->
  (if s then e2 < e1 \/ (e1 = e2 /\ (m2 < m1)%positive)
   else e1 < e2 \/ (e1 = e2 /\ (m1 < m2)%positive)).
Proof.
  rewrite <- SFcompare_finite_lt. unfold lt, SFltb.
  destruct (SFcompare _ _) as [[]|]; split; intros Hlt;
    try discriminate; try reflexivity.
Qed.

Lemma lt_trans_float (a b c : float) :
  lt a b = true -> lt b c = true -> lt a c = true.
Proof.
  destruct a as [sa|sa| |sa ma ea], b as [sb|sb| |sb mb eb],
           c as [sc|sc| |sc mc ec];
    try (intros Hab Hbc; solve
      [ discriminate Hab | discriminate Hbc | reflexivity
      | destruct sa; first [discriminate Hab | discriminate Hbc | reflexivity]
      | destruct sb; first [discriminate Hab | discriminate Hbc | reflexivity]
      | destruct sc; first [discriminate Hab | discriminate Hbc | reflexivity]
      | destruct sa, sb; first [discriminate Hab | discriminate Hbc | reflexivity]
      | destruct sa, sc; first [discriminate Hab | discriminate Hbc | reflexivity]
      | destruct sb, sc; first [discriminate Hab | discriminate Hbc | reflexivity]
      | destruct sa, sb, sc; first [discriminate Hab | discriminate Hbc | reflexivity] ]).
  destruct sa, sb, sc; intros Hab Hbc;
    try discriminate Hab; try discriminate Hbc; try reflexivity.
  - apply lt_finite in Hab. apply lt_finite in Hbc. apply lt_finite. lia.
  - apply lt_finite in Hab. apply lt_finite in Hbc. apply lt_finite. lia.
Qed.

Lemma better_trans (op : monitor_fn) (a b c : float) :
  better op a b = true -> better op b c = true -> better op a c = true.
Proof.
  destruct op; cbn; intros Hab Hbc.
  - exact (lt_trans_float a b c Hab Hbc).
  - exact (lt_trans_float c b a Hbc Hab).
Qed.

Lemma not_worse_trans (op : monitor_fn) (a b c : float) :
  not_worse op a b -> not_worse op b c -> not_worse op a c.
Proof.
  intros [-> | Hab] [-> | Hbc].
  - now left.
  - now right.
  - now right.
  - right. exact (better_trans op a b c Hab Hbc).
Qed.

(** On numbers, passing the test is being strictly better. *)
Lemma improved_is_better (op : monitor_fn) (current old : float) :
  is_nan current = false -> is_nan old = false ->
  improved op current old = better op current old.
Proof.
  intros Hc Ho. destruct op; cbn [better].
  - now apply improved_min_number.
  - now apply improved_max_number.
Qed.

End FloatOrder.

(** ** A fresh object *)

Section FreshObject.

Context {Model : Type}.

(** X7. Whatever the mode and the monitored name, the constructor pairs the
    direction with its worst value ([min] with plus infinity, [max] with
    minus infinity), so the first metric that is compared passes the test
    unless it equals that initial value. *)
Theorem first_metric_passes_unless_initial filepath monitor verbose sbo mode swo
    (n : Z) (current : float) :
  let s := __init__ (Model := Model) filepath monitor verbose sbo mode swo n in
  ((monitor_op s = Min /\ best s = inf) \/ (monitor_op s = Max /\ best s = neg_inf))
  /\ improved (monitor_op s) current (best s) = ne current (best s).
Proof.
  cbv zeta. unfold __init__.
  destruct (String.eqb mode "auto"), (String.eqb mode "min"), (py_in "acc" monitor);
    cbn [monitor_op best]; (split; [auto |]);
    destruct current as [sc|sc| |sc mc ec]; try destruct sc; reflexivity.
Qed.

Lemma init_model_unset filepath monitor verbose sbo mode swo (n : Z) :
  model (__init__ (Model := Model) filepath monitor verbose sbo mode swo n) = None.
Proof.
  unfold __init__.
  destruct (String.eqb mode "auto"), (String.eqb mode "min"), (py_in "acc" monitor);
    reflexivity.
Qed.

End FreshObject.

(** ** Whole runs *)

Section RunFacts.

Context {FS Model : Type} `{Platform FS Model}.

Implicit Types (s : ModelCheckpoint Model) (fs : FS) (epoch : Z)
  (logs : option (gmap string float)) (path : string)
  (calls : list (Z * option (gmap string float))).

(** X8. In a run of [n] calls that starts with the counter at [c], with
    [0 <= c < period], the path is resolved [(c + n) / period] times:
    once every [period] calls. *)
Theorem attempts_in_a_run calls s fs :
  0 <= epochs_since_last_save s < period s ->
  Z.of_nat (attempts (run calls s fs))
    = (epochs_since_last_save s + Z.of_nat (length calls)) / period s.
Proof.
  revert s fs. induction calls as [|[epoch logs] calls IH]; intros s fs Hc.
  - cbn. rewrite Z.add_0_r. symmetry. apply Z.div_small. lia.
  - pose proof (on_epoch_end_cycle epoch logs s fs Hc) as Hstep. cbn [run].
    destruct (on_epoch_end epoch logs s fs) as [[[r s1] fs1] evs].
    destruct Hstep as (Hp & Hn & Ha).
    assert (Hc1 : 0 <= epochs_since_last_save s1 < period s1).
    { rewrite Hn, Hp. apply Z.mod_pos_bound. lia. }
    specialize (IH s1 fs1 Hc1). rewrite Hp in IH.
    unfold attempts in *. cbn [List.filter events snd]. rewrite Ha.
    cbn [length]. rewrite Nat2Z.inj_succ.
    destruct (Z.eq_dec (epochs_since_last_save s + 1) (period s)) as [Heq|Hne].
    + rewrite Heq, Z_mod_same_full in Hn |- *. cbn [Z.eqb length].
      rewrite Nat2Z.inj_succ, IH, Hn, Z.add_0_l.
      replace (epochs_since_last_save s + Z.succ (Z.of_nat (length calls)))
        with (1 * period s + Z.of_nat (length calls)) by lia.
      rewrite Z.div_add_l by lia. lia.
    + rewrite Z.mod_small in Hn |- * by lia.
      destruct (Z.eqb_spec (epochs_since_last_save s + 1) 0) as [H0|H0]; [lia |].
      rewrite IH, Hn. f_equal. lia.
Qed.

(** X9. The constructor does not reject a period of 1, 0 or below: with such
    a period every call resolves the path and leaves the counter at 0. *)
Theorem small_period_attempts_every_call calls s fs :
  period s <= 1 ->
  0 <= epochs_since_last_save s ->
  Forall (fun o => attempted (events o) = true
                   /\ epochs_since_last_save (self_after o) = 0)
         (run calls s fs).
Proof.
  revert s fs. induction calls as [|[epoch logs] calls IH]; intros s fs Hp Hc;
    cbn [run]; [constructor |].
  pose proof (on_epoch_end_counter epoch logs s fs) as Hstep.
  destruct (on_epoch_end epoch logs s fs) as [[[r s1] fs1] evs].
  destruct Hstep as (Hp1 & Hn & Ha).
  destruct (Z.leb_spec (period s) (epochs_since_last_save s + 1)) as [Hle|Hlt];
    [| lia].
  constructor; [split; assumption |].
  apply IH; lia.
Qed.

Lemma on_epoch_end_always_best epoch logs s fs :
  save_best_only s = false ->
  best (self_after (on_epoch_end epoch logs s fs)) = best s.
Proof.
  apply on_epoch_end_elim; cbv zeta; intros; try reflexivity; congruence.
Qed.

(** X10. With [save_best_only] off, [best] keeps its initial value through
    the whole run, whatever the metrics are. *)
Theorem always_mode_never_assigns_best calls s fs :
  save_best_only s = false ->
  Forall (fun o => best (self_after o) = best s) (run calls s fs).
Proof.
  revert s fs. induction calls as [|[epoch logs] calls IH]; intros s fs Hb;
    cbn [run]; [constructor |].
  pose proof (on_epoch_end_always_best epoch logs s fs Hb) as Hbest.
  pose proof (on_epoch_end_same_config epoch logs s fs) as (_ & _ & _ & Hsbo & _).
  destruct (on_epoch_end epoch logs s fs) as [[[r s1] fs1] evs].
  cbn in Hbest, Hsbo. constructor; [exact Hbest |].
  rewrite <- Hbest. apply IH. congruence.
Qed.

Lemma on_epoch_end_best_number epoch logs s fs :
  is_nan (best s) = false ->
  reports_number (monitor s) logs ->
  is_nan (best (self_after (on_epoch_end epoch logs s fs))) = false
  /\ not_worse (monitor_op s)
       (best (self_after (on_epoch_end epoch logs s fs))) (best s).
Proof.
  intros Hn Hnum.
  apply on_epoch_end_elim; cbv zeta; intros;
    try (split; [exact Hn | now left]).
  cbn. assert (Hcur : is_nan current = false) by now apply Hnum.
  split; [exact Hcur |]. right.
  rewrite <- improved_is_better by assumption. assumption.
Qed.

(** X11. As long as [best] and the monitored metrics are numbers (no NaN),
    [best] only moves in the direction of [monitor_op]: after every call
    of a run it is the value the run started with or a strictly better
    one, and it is never a NaN. *)
Theorem best_never_worsens_on_numbers calls s fs :
  is_nan (best s) = false ->
  Forall (fun c => reports_number (monitor s) c.2) calls ->
  Forall (fun o => is_nan (best (self_after o)) = false
                   /\ not_worse (monitor_op s) (best (self_after o)) (best s))
         (run calls s fs).
Proof.
  revert s fs. induction calls as [|[epoch logs] calls IH]; intros s fs Hn Hnum;
    cbn [run]; [constructor |].
  inversion Hnum as [|c cs Hhead Htail]; subst. cbn in Hhead.
  pose proof (on_epoch_end_best_number epoch logs s fs Hn Hhead) as [Hn1 Hw].
  pose proof (on_epoch_end_same_config epoch logs s fs)
    as (_ & Hmon & _ & _ & _ & _ & Hop & _).
  destruct (on_epoch_end epoch logs s fs) as [[[r s1] fs1] evs].
  cbn in Hn1, Hw, Hmon, Hop. constructor; [split; assumption |].
  assert (Htail1 : Forall (fun c => reports_number (monitor s1) c.2) calls)
    by now rewrite Hmon.
  eapply List.Forall_impl; [| apply (IH s1 fs1 Hn1 Htail1)].
  intros o [Hno Hwo]. cbn beta. split; [exact Hno |].
  rewrite Hop in Hwo. exact (not_worse_trans _ _ _ _ Hwo Hw).
Qed.

(** X12. With a period of at most 1 and [save_best_only] on, reporting the
    same number a second time saves nothing, whatever [best] was before
    (a NaN included): whether the first call saved
    the model, found no improvement or failed in [_save_model], the
    second call returns normally without entering [_save_model] and
    leaves [best] and the file system as the first call left them.  A
    failed save is not tried again. *)
Theorem same_metric_again_is_not_saved epoch logs s fs path current :
  period s <= 1 ->
  0 <= epochs_since_last_save s ->
  format_filepath (filepath s) (epoch + 1) (default ∅ logs) = Ok path ->
  save_best_only s = true ->
  default ∅ logs !! monitor s = Some current ->
  is_nan current = false ->
  let out1 := on_epoch_end epoch logs s fs in
  let out2 := on_epoch_end epoch logs (self_after out1) (fs_after out1) in
  outcome out2 = Ok tt
  /\ reached_save (events out2) = false
  /\ fs_after out2 = fs_after out1
  /\ best (self_after out2) = best (self_after out1).
Proof.
  intros Hp Hc Hf Hb Hm Hcur. cbv zeta.
  assert (Hle : period s <= epochs_since_last_save s + 1) by lia.
  destruct (improved (monitor_op s) current (best s)) eqn:Hi.
  - rewrite (on_epoch_end_improved epoch logs s fs path current Hle Hf Hb Hm Hi).
    pose proof (_save_model_self epoch path (set_best current (reset s)) fs) as Hs.
    destruct (_save_model epoch path (set_best current (reset s)) fs)
      as [[[r s1] fs1] evs].
    cbn in Hs. subst s1. cbn [self_after fs_after fst snd].
    assert (Hi2 : improved (monitor_op (set_best current (reset s))) current
                    (best (set_best current (reset s))) = false).
    { cbn. apply improved_tie. now apply eq_refl_number. }
    rewrite (on_epoch_end_not_improved epoch logs (set_best current (reset s)) fs1
               path current); try assumption; try (cbn; lia).
    cbn. split; [reflexivity |]. split; [| split; reflexivity].
    break_printed; reflexivity.
  - rewrite (on_epoch_end_not_improved epoch logs s fs path current Hle Hf Hb Hm Hi).
    cbn [self_after fs_after fst snd].
    rewrite (on_epoch_end_not_improved epoch logs (reset s) fs path current);
      try assumption; try (cbn; lia).
    cbn. split; [reflexivity |]. split; [| split; reflexivity].
    break_printed; reflexivity.
Qed.

Lemma _save_model_unattached epoch path s fs :
  model s = None ->
  saves (events (_save_model epoch path s fs)) = 0%nat
  /\ exists e, outcome (_save_model epoch path s fs) = Raise e.
Proof.
  intros Hm. apply _save_model_elim; cbv zeta; intros;
    try congruence; (split; [reflexivity | eexists; reflexivity]).
Qed.

Lemma on_epoch_end_unattached epoch logs s fs :
  model s = None ->
  saves (events (on_epoch_end epoch logs s fs)) = 0%nat
  /\ (reached_save (events (on_epoch_end epoch logs s fs)) = true ->
      exists e, outcome (on_epoch_end epoch logs s fs) = Raise e).
Proof.
  intros Hm. apply on_epoch_end_elim; cbv zeta.
  - intros _. split; [reflexivity | discriminate].
  - intros e _ _. split; [reflexivity | discriminate].
  - intros path r fs1 evs _ _ _ Hsave.
    pose proof (_save_model_unattached epoch path (reset s) fs Hm) as [Hs [e He]].
    rewrite Hsave in Hs, He. cbn in Hs, He. subst r. split.
    + unfold saves in *. break_printed; cbn; exact Hs.
    + intros _. now exists e.
  - intros path _ _ _ _. split; break_printed; cbn; congruence.
  - intros path current _ _ _ _ _. split; break_printed; cbn; congruence.
  - intros path current r fs1 evs _ _ _ _ _ Hsave.
    pose proof (_save_model_unattached epoch path (set_best current (reset s)) fs Hm)
      as [Hs [e He]].
    rewrite Hsave in Hs, He. cbn in Hs, He. subst r. split.
    + unfold saves in *. break_printed; cbn; exact Hs.
    + intros _. now exists e.
Qed.

(** X13. The constructor leaves [self.model] unset.  As long as no model is
    attached, no call of a run ever reaches [torch.save], and every call
    that enters [_save_model] raises. *)
Theorem unattached_model_never_saves calls s fs :
  model s = None ->
  Forall (fun o => saves (events o) = 0%nat
                   /\ (reached_save (events o) = true -> exists e, outcome o = Raise e))
         (run calls s fs).
Proof.
  revert s fs. induction calls as [|[epoch logs] calls IH]; intros s fs Hm;
    cbn [run]; [constructor |].
  pose proof (on_epoch_end_unattached epoch logs s fs Hm) as Hcall.
  pose proof (on_epoch_end_same_config epoch logs s fs)
    as (_ & _ & _ & _ & _ & _ & _ & Hmodel).
  destruct (on_epoch_end epoch logs s fs) as [[[r s1] fs1] evs].
  cbn in Hmodel. constructor; [exact Hcall |].
  apply IH. congruence.
Qed.

End RunFacts.

(** ** A path with an empty directory part, seen from [on_epoch_end] *)

Section BareFileName.

Context {FS Model : Type} `{Platform FS Model} `{!EmptyPathLaws FS Model}.

Implicit Types (s : ModelCheckpoint Model) (fs : FS) (epoch : Z)
  (logs : option (gmap string float)) (path : string).

Lemma _save_model_empty_dirname epoch path s fs :
  os_path_dirname path = EmptyString ->
  _save_model epoch path s fs =
    (Raise (OSError ENOENT ""), s, fs, [EvExists ""; EvMakedirs ""]).
Proof.
  intros Hd. unfold_save. rewrite Hd, exists_empty. cbn [negb].
  now rewrite makedirs_empty.
Qed.

(** X14. When [os.path.dirname] of the resolved path is empty, the call
    can never save: in both modes every call that enters [_save_model]
    raises [FileNotFoundError] from [os.makedirs('')], [torch.save] is
    not called and the file system is untouched. *)
Theorem empty_dirname_path_never_saved epoch logs s fs path :
  format_filepath (filepath s) (epoch + 1) (default ∅ logs) = Ok path ->
  os_path_dirname path = EmptyString ->
  saves (events (on_epoch_end epoch logs s fs)) = 0%nat
  /\ fs_after (on_epoch_end epoch logs s fs) = fs
  /\ (reached_save (events (on_epoch_end epoch logs s fs)) = true ->
      outcome (on_epoch_end epoch logs s fs) = Raise (OSError ENOENT "")).
Proof.
  intros Hf Hbare.
  apply on_epoch_end_elim; cbv zeta.
  - intros _. repeat split. discriminate.
  - intros e _ Hf'. congruence.
  - intros path' r fs1 evs _ Hf' _ Hsave.
    assert (path' = path) by congruence. subst path'.
    rewrite (_save_model_empty_dirname epoch path (reset s) fs Hbare) in Hsave.
    inversion Hsave; subst. unfold saves. break_printed; repeat split.
  - intros path' _ _ _ _. unfold saves.
    break_printed; repeat split; discriminate.
  - intros path' current _ _ _ _ _. unfold saves.
    break_printed; repeat split; discriminate.
  - intros path' current r fs1 evs _ Hf' _ _ _ Hsave.
    assert (path' = path) by congruence. subst path'.
    rewrite (_save_model_empty_dirname epoch path (set_best current (reset s)) fs Hbare)
      in Hsave.
    inversion Hsave; subst. unfold saves. break_printed; repeat split.
Qed.

End BareFileName.

(** ** The further theorems at concrete calls *)

Lemma file_system_untouched_outside_save_witness :
  reached_save
    (events (on_epoch_end 0 (Demo.loss f1_0) (set_best f0_5 Demo.best_loss)
               Sim.empty_fs)) = false
  /\ fs_after (on_epoch_end 0 (Demo.loss f1_0) (set_best f0_5 Demo.best_loss)
                 Sim.empty_fs) = Sim.empty_fs
  /\ saves (events (on_epoch_end 0 (Demo.loss f1_0) (set_best f0_5 Demo.best_loss)
                      Sim.empty_fs)) = 0%nat.
Proof.
  assert (Hr : reached_save
                 (events (on_epoch_end 0 (Demo.loss f1_0)
                            (set_best f0_5 Demo.best_loss) Sim.empty_fs)) = false)
    by (vm_compute; reflexivity).
  split; [exact Hr |].
  exact (file_system_untouched_outside_save 0 (Demo.loss f1_0)
           (set_best f0_5 Demo.best_loss) Sim.empty_fs Hr).
Defined.

Lemma saves_once_to_resolved_path_witness :
  In (EvTorchSave (FullModel 7%nat) "ckpt/model_1.pt")
     (events (on_epoch_end 0 (Demo.loss f0_5) Demo.best_loss Sim.empty_fs))
  /\ format_filepath (filepath Demo.best_loss) (0 + 1) (default ∅ (Demo.loss f0_5))
       = Ok "ckpt/model_1.pt"
  /\ exists m, model Demo.best_loss = Some m
               /\ FullModel 7%nat = payload_of Demo.best_loss m.
Proof.
  assert (Hin : In (EvTorchSave (FullModel 7%nat) "ckpt/model_1.pt")
                  (events (on_epoch_end 0 (Demo.loss f0_5) Demo.best_loss
                             Sim.empty_fs)))
    by (vm_compute; do 4 right; left; reflexivity).
  split; [exact Hin |].
  exact (proj2 (saves_once_to_resolved_path 0 (Demo.loss f0_5) Demo.best_loss
                  Sim.empty_fs)
           (FullModel 7%nat) "ckpt/model_1.pt" Hin).
Defined.

Lemma makedirs_only_when_missing_witness :
  In (EvMakedirs "ckpt")
     (events (on_epoch_end 0 (Demo.loss f0_5) Demo.best_loss Sim.empty_fs))
  /\ os_path_exists "ckpt" Sim.empty_fs = false
  /\ exists path,
       format_filepath (filepath Demo.best_loss) (0 + 1) (default ∅ (Demo.loss f0_5))
         = Ok path
       /\ "ckpt" = os_path_dirname path.
Proof.
  assert (Hin : In (EvMakedirs "ckpt")
                  (events (on_epoch_end 0 (Demo.loss f0_5) Demo.best_loss
                             Sim.empty_fs)))
    by (vm_compute; do 3 right; left; reflexivity).
  split; [exact Hin |].
  exact (makedirs_only_when_missing 0 (Demo.loss f0_5) Demo.best_loss
           Sim.empty_fs "ckpt" Hin).
Defined.

Lemma quiet_when_not_verbose_witness :
  verbose Demo.bare_best <= 0
  /\ prints (events (on_epoch_end 0 (Demo.loss f0_5) Demo.bare_best Sim.empty_fs))
     = 0%nat.
Proof.
  assert (Hv : verbose Demo.bare_best <= 0) by (vm_compute; discriminate).
  split; [exact Hv |].
  exact (quiet_when_not_verbose 0 (Demo.loss f0_5) Demo.bare_best Sim.empty_fs Hv).
Defined.

Lemma one_line_per_resolved_attempt_witness :
  0 < verbose Demo.best_loss
  /\ period Demo.best_loss <= epochs_since_last_save Demo.best_loss + 1
  /\ format_filepath (filepath Demo.best_loss) (0 + 1) (default ∅ (Demo.loss f0_5))
       = Ok "ckpt/model_1.pt"
  /\ prints (events (on_epoch_end 0 (Demo.loss f0_5) Demo.best_loss Sim.empty_fs))
     = 1%nat.
Proof.
  assert (Hv : 0 < verbose Demo.best_loss) by (vm_compute; reflexivity).
  assert (Hle : period Demo.best_loss <= epochs_since_last_save Demo.best_loss + 1)
    by (vm_compute; discriminate).
  assert (Hf : format_filepath (filepath Demo.best_loss) (0 + 1)
                 (default ∅ (Demo.loss f0_5)) = Ok "ckpt/model_1.pt")
    by (vm_compute; reflexivity).
  split; [exact Hv |]. split; [exact Hle |]. split; [exact Hf |].
  exact (one_line_per_resolved_attempt 0 (Demo.loss f0_5) Demo.best_loss
           Sim.empty_fs "ckpt/model_1.pt" Hv Hle Hf).
Defined.

Lemma attempts_in_a_run_witness :
  0 <= epochs_since_last_save Demo.every_third < period Demo.every_third
  /\ Z.of_nat (attempts (run Demo.six_epochs Demo.every_third Sim.empty_fs))
     = (epochs_since_last_save Demo.every_third
        + Z.of_nat (length Demo.six_epochs)) / period Demo.every_third.
Proof.
  assert (Hc : 0 <= epochs_since_last_save Demo.every_third
               < period Demo.every_third) by (cbn; lia).
  split; [exact Hc |].
  exact (attempts_in_a_run Demo.six_epochs Demo.every_third Sim.empty_fs Hc).
Defined.

Lemma small_period_attempts_every_call_witness :
  period (Demo.make "ckpt/model_{epoch}.pt" "val_loss" 0 false "auto" 0) <= 1
  /\ 0 <= epochs_since_last_save
            (Demo.make "ckpt/model_{epoch}.pt" "val_loss" 0 false "auto" 0)
  /\ Forall (fun o => attempted (events o) = true
                      /\ epochs_since_last_save (self_after o) = 0)
       (run Demo.six_epochs
          (Demo.make "ckpt/model_{epoch}.pt" "val_loss" 0 false "auto" 0)
          Sim.empty_fs).
Proof.
  assert (Hp : period (Demo.make "ckpt/model_{epoch}.pt" "val_loss" 0 false "auto" 0)
               <= 1) by (cbn; lia).
  assert (Hc : 0 <= epochs_since_last_save
                      (Demo.make "ckpt/model_{epoch}.pt" "val_loss" 0 false "auto" 0))
    by (cbn; lia).
  split; [exact Hp |]. split; [exact Hc |].
  exact (small_period_attempts_every_call Demo.six_epochs
           (Demo.make "ckpt/model_{epoch}.pt" "val_loss" 0 false "auto" 0)
           Sim.empty_fs Hp Hc).
Defined.

Lemma always_mode_never_assigns_best_witness :
  save_best_only Demo.every_third = false
  /\ Forall (fun o => best (self_after o) = best Demo.every_third)
       (run Demo.six_epochs Demo.every_third Sim.empty_fs).
Proof.
  assert (Hb : save_best_only Demo.every_third = false) by reflexivity.
  split; [exact Hb |].
  exact (always_mode_never_assigns_best Demo.six_epochs Demo.every_third
           Sim.empty_fs Hb).
Defined.

Lemma best_never_worsens_on_numbers_witness :
  is_nan (best Demo.best_loss) = false
  /\ Forall (fun c => reports_number (monitor Demo.best_loss) c.2) Demo.six_epochs
  /\ Forall (fun o => is_nan (best (self_after o)) = false
                      /\ not_worse (monitor_op Demo.best_loss)
                           (best (self_after o)) (best Demo.best_loss))
       (run Demo.six_epochs Demo.best_loss Sim.empty_fs).
Proof.
  assert (Hn : is_nan (best Demo.best_loss) = false) by reflexivity.
  assert (Hnum : Forall (fun c => reports_number (monitor Demo.best_loss) c.2)
                   Demo.six_epochs).
  { unfold Demo.six_epochs, reports_number.
    repeat constructor; intros x Hx; vm_compute in Hx;
      injection Hx as <-; reflexivity. }
  split; [exact Hn |]. split; [exact Hnum |].
  exact (best_never_worsens_on_numbers Demo.six_epochs Demo.best_loss
           Sim.empty_fs Hn Hnum).
Defined.

Lemma same_metric_again_is_not_saved_witness :
  period Demo.bare_best <= 1
  /\ format_filepath (filepath Demo.bare_best) (0 + 1) (default ∅ (Demo.loss f0_5))
       = Ok "model.pt"
  /\ default ∅ (Demo.loss f0_5) !! monitor Demo.bare_best = Some f0_5
  /\ outcome (on_epoch_end 0 (Demo.loss f0_5) Demo.bare_best Sim.empty_fs)
       = Raise (OSError ENOENT "")
  /\ outcome
       (on_epoch_end 0 (Demo.loss f0_5)
          (self_after (on_epoch_end 0 (Demo.loss f0_5) Demo.bare_best Sim.empty_fs))
          (fs_after (on_epoch_end 0 (Demo.loss f0_5) Demo.bare_best Sim.empty_fs)))
       = Ok tt
  /\ reached_save
       (events
          (on_epoch_end 0 (Demo.loss f0_5)
             (self_after (on_epoch_end 0 (Demo.loss f0_5) Demo.bare_best Sim.empty_fs))
             (fs_after (on_epoch_end 0 (Demo.loss f0_5) Demo.bare_best Sim.empty_fs))))
       = false.
Proof.
  assert (Hp : period Demo.bare_best <= 1) by (cbn; lia).
  assert (Hc : 0 <= epochs_since_last_save Demo.bare_best) by (cbn; lia).
  assert (Hf : format_filepath (filepath Demo.bare_best) (0 + 1)
                 (default ∅ (Demo.loss f0_5)) = Ok "model.pt")
    by (vm_compute; reflexivity).
  assert (Hb : save_best_only Demo.bare_best = true) by reflexivity.
  assert (Hm : default ∅ (Demo.loss f0_5) !! monitor Demo.bare_best = Some f0_5)
    by (vm_compute; reflexivity).
  assert (Hcur : is_nan f0_5 = false) by reflexivity.
  assert (H1 : outcome (on_epoch_end 0 (Demo.loss f0_5) Demo.bare_best Sim.empty_fs)
               = Raise (OSError ENOENT "")) by (vm_compute; reflexivity).
  pose proof (same_metric_again_is_not_saved 0 (Demo.loss f0_5) Demo.bare_best
                Sim.empty_fs "model.pt" f0_5 Hp Hc Hf Hb Hm Hcur)
    as (Hok & Hreach & _).
  split; [exact Hp |]. split; [exact Hf |]. split; [exact Hm |].
  split; [exact H1 |]. split; [exact Hok | exact Hreach].
Defined.

Lemma unattached_model_never_saves_witness :
  model (__init__ (Model := Sim.Model) "ckpt/model_{epoch}.pt" "val_loss" 0 false
           "auto" false 1) = None
  /\ Forall (fun o => saves (events o) = 0%nat
                      /\ (reached_save (events o) = true ->
                          exists e, outcome o = Raise e))
       (run Demo.six_epochs
          (__init__ (Model := Sim.Model) "ckpt/model_{epoch}.pt" "val_loss" 0 false
             "auto" false 1)
          Sim.empty_fs).
Proof.
  assert (Hm : model (__init__ (Model := Sim.Model) "ckpt/model_{epoch}.pt"
                        "val_loss" 0 false "auto" false 1) = None) by reflexivity.
  split; [exact Hm |].
  exact (unattached_model_never_saves Demo.six_epochs
           (__init__ (Model := Sim.Model) "ckpt/model_{epoch}.pt" "val_loss" 0 false
              "auto" false 1)
           Sim.empty_fs Hm).
Defined.

Lemma empty_dirname_path_never_saved_witness :
  format_filepath (filepath Demo.bare_best) (0 + 1) (default ∅ (Demo.loss f0_5))
    = Ok "model.pt"
  /\ os_path_dirname "model.pt" = EmptyString
  /\ saves (events (on_epoch_end 0 (Demo.loss f0_5) Demo.bare_best Sim.empty_fs))
     = 0%nat
  /\ fs_after (on_epoch_end 0 (Demo.loss f0_5) Demo.bare_best Sim.empty_fs)
     = Sim.empty_fs
  /\ (reached_save
        (events (on_epoch_end 0 (Demo.loss f0_5) Demo.bare_best Sim.empty_fs)) = true ->
      outcome (on_epoch_end 0 (Demo.loss f0_5) Demo.bare_best Sim.empty_fs)
        = Raise (OSError ENOENT "")).
Proof.
  assert (Hf : format_filepath (filepath Demo.bare_best) (0 + 1)
                 (default ∅ (Demo.loss f0_5)) = Ok "model.pt")
    by (vm_compute; reflexivity).
  assert (Hbare : os_path_dirname "model.pt" = EmptyString) by reflexivity.
  split; [exact Hf |]. split; [exact Hbare |].
  exact (empty_dirname_path_never_saved 0 (Demo.loss f0_5) Demo.bare_best
           Sim.empty_fs "model.pt" Hf Hbare).
Defined.

(** ** How a call ends, and when [best] moves *)

Section CallEnds.

Context {FS Model : Type} `{Platform FS Model}.

Implicit Types (s : ModelCheckpoint Model) (fs : FS) (epoch : Z)
  (logs : option (gmap string float)) (path : string).

(** X15. A call that entered [_save_model] and returned normally has handed
    the model to [torch.save], exactly once. *)
Theorem normal_return_after_save_step_has_saved epoch logs s fs :
  outcome (on_epoch_end epoch logs s fs) = Ok tt ->
  reached_save (events (on_epoch_end epoch logs s fs)) = true ->
  saves (events (on_epoch_end epoch logs s fs)) = 1%nat.
Proof.
  apply on_epoch_end_elim; cbv zeta.
  - intros _ _. discriminate.
  - intros e _ _. discriminate.
  - intros path r fs1 evs _ _ _ Hsave Hok _. cbn in Hok. subst r.
    pose proof (_save_model_ok epoch path (reset s) fs) as Hone.
    rewrite Hsave in Hone. specialize (Hone eq_refl).
    unfold saves in *. cbn in Hone. break_printed; cbn; exact Hone.
  - intros path _ _ _ _ _. break_printed; cbn; discriminate.
  - intros path current _ _ _ _ _ _. break_printed; cbn; discriminate.
  - intros path current r fs1 evs _ _ _ _ _ Hsave Hok _. cbn in Hok. subst r.
    pose proof (_save_model_ok epoch path (set_best current (reset s)) fs) as Hone.
    rewrite Hsave in Hone. specialize (Hone eq_refl).
    unfold saves in *. cbn in Hone. break_printed; cbn; exact Hone.
Qed.

(** X16. Every exception leaves [on_epoch_end] after the counter was reset: a
    call that raises has reached the cadence, has tried to resolve the
    path, and leaves the counter at 0, so the next call opens a new
    window. *)
Theorem raising_call_has_reset_counter epoch logs s fs e :
  outcome (on_epoch_end epoch logs s fs) = Raise e ->
  epochs_since_last_save (self_after (on_epoch_end epoch logs s fs)) = 0
  /\ attempted (events (on_epoch_end epoch logs s fs)) = true
  /\ period s <= epochs_since_last_save s + 1.
Proof.
  apply on_epoch_end_elim; cbv zeta; intros; cbn in *;
    try discriminate; repeat split; assumption.
Qed.

(** X17. [best] is assigned only on the way into [_save_model]: a call that
    does not enter it leaves [best] alone, and after any call [best] is
    either what it was or the monitored metric of this call. *)
Theorem best_changes_only_with_a_save_attempt epoch logs s fs :
  (reached_save (events (on_epoch_end epoch logs s fs)) = false ->
   best (self_after (on_epoch_end epoch logs s fs)) = best s)
  /\ (best (self_after (on_epoch_end epoch logs s fs)) = best s
      \/ default ∅ logs !! monitor s
           = Some (best (self_after (on_epoch_end epoch logs s fs)))).
Proof.
  apply on_epoch_end_elim; cbv zeta; intros;
    try (split; [intros _; reflexivity | left; reflexivity]).
  match goal with Hsave : _save_model _ _ _ _ = _ |- _ => save_facts Hsave end.
  unfold reached_save in *. split.
  - break_printed; cbn; rewrite Hreached; discriminate.
  - right. assumption.
Qed.

End CallEnds.

Lemma normal_return_after_save_step_has_saved_witness :
  outcome (on_epoch_end 0 (Demo.loss f0_5) Demo.best_file Sim.empty_fs) = Ok tt
  /\ reached_save
       (events (on_epoch_end 0 (Demo.loss f0_5) Demo.best_file Sim.empty_fs)) = true
  /\ saves (events (on_epoch_end 0 (Demo.loss f0_5) Demo.best_file Sim.empty_fs))
     = 1%nat.
Proof.
  assert (Hok : outcome (on_epoch_end 0 (Demo.loss f0_5) Demo.best_file Sim.empty_fs)
                = Ok tt) by (vm_compute; reflexivity).
  assert (Hr : reached_save
                 (events (on_epoch_end 0 (Demo.loss f0_5) Demo.best_file
                            Sim.empty_fs)) = true) by (vm_compute; reflexivity).
  split; [exact Hok |]. split; [exact Hr |].
  exact (normal_return_after_save_step_has_saved 0 (Demo.loss f0_5) Demo.best_file
           Sim.empty_fs Hok Hr).
Defined.

Lemma raising_call_has_reset_counter_witness :
  outcome (on_epoch_end 0 (Demo.loss f0_5) Demo.names_val_acc Sim.empty_fs)
    = Raise (KeyError "val_acc")
  /\ epochs_since_last_save
       (self_after (on_epoch_end 0 (Demo.loss f0_5) Demo.names_val_acc Sim.empty_fs))
     = 0
  /\ attempted
       (events (on_epoch_end 0 (Demo.loss f0_5) Demo.names_val_acc Sim.empty_fs))
     = true
  /\ period Demo.names_val_acc <= epochs_since_last_save Demo.names_val_acc + 1.
Proof.
  assert (Hr : outcome (on_epoch_end 0 (Demo.loss f0_5) Demo.names_val_acc
                          Sim.empty_fs) = Raise (KeyError "val_acc"))
    by (vm_compute; reflexivity).
  split; [exact Hr |].
  exact (raising_call_has_reset_counter 0 (Demo.loss f0_5) Demo.names_val_acc
           Sim.empty_fs (KeyError "val_acc") Hr).
Defined.

Lemma best_changes_only_with_a_save_attempt_witness :
  reached_save
    (events (on_epoch_end 0 (Demo.loss f0_5) Demo.every_second_best Sim.empty_fs))
    = false
  /\ best (self_after
             (on_epoch_end 0 (Demo.loss f0_5) Demo.every_second_best Sim.empty_fs))
     = best Demo.every_second_best.
Proof.
  assert (Hr : reached_save
                 (events (on_epoch_end 0 (Demo.loss f0_5) Demo.every_second_best
                            Sim.empty_fs)) = false) by (vm_compute; reflexivity).
  split; [exact Hr |].
  exact (proj1 (best_changes_only_with_a_save_attempt 0 (Demo.loss f0_5)
                  Demo.every_second_best Sim.empty_fs) Hr).
Defined.
